(** * db-backup-operator: a shallow embedding and its specification

    The operator turns a [DatabaseBackup] custom resource into a CronJob.
    This development embeds

    - [operator/config.py]    as module [Config],
    - [operator/templates.py] as module [ManifestTemplates] (with the
      meaning of the generated cleanup pipeline in module [Shell]),
    - [operator/handlers.py]  as module [Handlers] (over the cluster API of
      module [Kube]),

    and proves the properties the design document states about them.

    Python values are embedded in module [Py]: dictionaries read by key
    are finite maps ([gmap string pyval]), the dictionaries the program
    builds are ordered association lists, exceptions are the left summand
    of a state-and-error monad. *)

From Stdlib Require Import ZArith String Ascii List Permutation Sorted DecimalString Lia.
From Stdlib Require DecimalPos DecimalZ.
From stdpp Require Import gmap strings list.

Open Scope string_scope.
Open Scope Z_scope.

(** * Python values, exceptions, and the built-ins the operator uses *)

Module Py.

(** The leaves of the JSON documents the operator reads: [None], booleans,
    integers and strings.  Numbers with a fraction (Python floats) and
    fields that hold a list or an object are outside this model: what is
    proved of a specification is proved of one whose leaves are of these
    four kinds. *)
Inductive pyval : Type :=
| PNone
| PBool (b : bool)
| PInt (z : Z)
| PStr (s : string).

#[global] Instance pyval_eq_dec : EqDecision pyval.
Proof. solve_decision. Defined.

(** A dictionary that is only read by key. *)
Abbreviation dict := (gmap string pyval).

(** The error of a Kubernetes client call ([kubernetes.client.exceptions.
    ApiException]): HTTP status and reason, the rendering of the response
    headers when there are any, and the response body when there is one. *)
Record ApiException : Type := mkApiException {
  api_status : Z;
  api_reason : string;
  api_headers : option string;
  api_body : option string
}.

(** The exceptions that can leave a function of the operator. *)
Inductive exn : Type :=
| KeyError (key : string)
| TypeError (msg : string)
| ValueError (msg : string)
| PermanentError (msg : string)              (* kopf.PermanentError *)
| TemporaryError (msg : string) (delay : Z)  (* kopf.TemporaryError *)
| ApiError (e : ApiException).               (* a failed cluster API call *)

(** [bool(v)]: Python truthiness. *)
Definition truthy (v : pyval) : bool :=
  match v with
  | PNone => false
  | PBool b => b
  | PInt z => negb (z =? 0)
  | PStr s => negb (String.eqb s "")
  end.

(** Truthiness of the result of [d.get(k)] ([None] when the key is absent). *)
Definition truthy_opt (o : option pyval) : bool :=
  match o with
  | Some v => truthy v
  | None => false
  end.

(** Decimal rendering of an integer, as [str(int)]. *)
Definition str_of_Z (z : Z) : string := NilZero.string_of_int (Z.to_int z).

(** [str(v)], which is also what an f-string or [str.format] field with no
    format specification inserts. *)
Definition str (v : pyval) : string :=
  match v with
  | PNone => "None"
  | PBool true => "True"
  | PBool false => "False"
  | PInt z => str_of_Z z
  | PStr s => s
  end.

(** [sep.join(l)]. *)
Definition join (sep : string) (l : list string) : string := String.concat sep l.

(** [d[k]]: raises [KeyError] on a missing key. *)
Definition getitem (d : dict) (k : string) : exn + pyval :=
  match d !! k with
  | Some v => inr v
  | None => inl (KeyError k)
  end.

(** [d.get(k, default)]. *)
Definition get_default (d : dict) (k : string) (default : pyval) : pyval :=
  match d !! k with
  | Some v => v
  | None => default
  end.

(** [l.insert(i, x)] for an index [i >= 0]: the element lands before
    position [i], or at the end when the list is shorter. *)
Definition list_insert_at {A : Type} (i : nat) (x : A) (l : list A) : list A :=
  firstn i l ++ x :: skipn i l.

(** [v == s] for a string literal [s]: only a string can equal a string. *)
Definition eq_str (v : pyval) (s : string) : bool :=
  match v with
  | PStr t => String.eqb t s
  | _ => false
  end.

(** [v in l] for a list [l] of strings. *)
Definition in_strs (v : pyval) (l : list string) : bool :=
  existsb (eq_str v) l.

(** [d.get(v)] on a dictionary with string keys, for an arbitrary key
    value [v]: a key that is not a string is never found. *)
Definition lookup_val {A : Type} (d : gmap string A) (v : pyval) : option A :=
  match v with
  | PStr s => d !! s
  | _ => None
  end.

(** [template.format(...)] with keyword arguments [kw].  Replacement
    fields are plain names ([{host}]); [{{] and [}}] are the escapes for
    braces.  Conversions, format
    specifications and attribute access do not occur in the operator's
    templates and are not interpreted: the text between the braces is the
    keyword looked up.  [field] is [Some acc] while inside a field. *)
Fixpoint format_go (kw : gmap string pyval) (s : string) (field : option string)
  : exn + string :=
  match field, s with
  | None, EmptyString => inr ""
  | None, String "{" (String "{" rest) =>
      match format_go kw rest None with
      | inr out => inr (String "{" out)
      | inl e => inl e
      end
  | None, String "}" (String "}" rest) =>
      match format_go kw rest None with
      | inr out => inr (String "}" out)
      | inl e => inl e
      end
  | None, String "{" rest => format_go kw rest (Some "")
  | None, String "}" _ => inl (ValueError "Single '}' encountered in format string")
  | None, String c rest =>
      match format_go kw rest None with
      | inr out => inr (String c out)
      | inl e => inl e
      end
  | Some _, EmptyString => inl (ValueError "expected '}' before end of string")
  | Some acc, String "}" rest =>
      match kw !! acc with
      | Some v =>
          match format_go kw rest None with
          | inr out => inr (str v ++ out)
          | inl e => inl e
          end
      | None => inl (KeyError acc)
      end
  | Some acc, String c rest => format_go kw rest (Some (acc ++ String c ""))
  end.

Definition format (template : string) (kw : gmap string pyval) : exn + string :=
  format_go kw template None.

(** The double quote, for the texts that contain one. *)
Definition dquote : string := String (ascii_of_nat 34) EmptyString.

End Py.

(** * Computations with state and exceptions

    A Python function that reads or writes process state and may raise is a
    function from the state to an outcome and the new state. *)

Module Eff.
Import Py.

Definition M (St A : Type) : Type := St -> (exn + A) * St.

#[global] Instance M_ret {St} : MRet (M St) :=
  fun A (a : A) (s : St) => (inr a, s).

#[global] Instance M_bind {St} : MBind (M St) :=
  fun A B (k : A -> M St B) (c : M St A) (s : St) =>
    match c s with
    | (inr a, s') => k a s'
    | (inl e, s') => (inl e, s')
    end.

(** [raise e]. *)
Definition raise {St A} (e : exn) : M St A := fun s => (inl e, s).

(** A pure computation that may raise. *)
Definition lift {St A} (r : exn + A) : M St A := fun s => (r, s).

(** Change the state. *)
Definition modify {St} (f : St -> St) : M St unit := fun s => (inr tt, f s).

(** Run a computation on a component of the state. *)
Definition zoom {St T A} (proj : St -> T) (inj : T -> St -> St) (c : M T A) : M St A :=
  fun s => let '(r, t) := c (proj s) in (r, inj t s).

(** [try: body except ApiException as e: handler(e)]: any other exception
    passes through. *)
Definition try_except_ApiException {St A} (body : M St A) (handler : ApiException -> M St A)
  : M St A :=
  fun s =>
    match body s with
    | (inl (ApiError e), s') => handler e s'
    | other => other
    end.

(** Sequencing of pure computations that may raise. *)
#[global] Instance sum_ret : MRet (sum exn) := fun A (a : A) => inr a.
#[global] Instance sum_bind : MBind (sum exn) :=
  fun A B (k : A -> exn + B) (r : exn + A) =>
    match r with
    | inr a => k a
    | inl e => inl e
    end.

End Eff.

(** * operator/config.py *)

Module Config.
Import Py Eff.

Module DatabaseConfig.
Record t : Type := mk {
  supported_types : list string;
  default_ports : gmap string Z;
  images : gmap string string
}.
Definition default : t := {|
  supported_types := ["postgres"; "mysql"; "mongodb"];
  default_ports := {[ "postgres" := 5432; "mysql" := 3306; "mongodb" := 27017 ]};
  images := {[ "postgres" := "postgres:15-alpine";
               "mysql" := "mysql:8.0";
               "mongodb" := "mongo:7.0" ]}
|}.
End DatabaseConfig.

Module StorageConfig.
Record t : Type := mk {
  supported_types : list string;
  default_regions : gmap string string
}.
Definition default : t := {|
  supported_types := ["s3"; "gcs"; "azure"];
  default_regions := {[ "s3" := "us-east-1"; "gcs" := "us-central1"; "azure" := "eastus" ]}
|}.
End StorageConfig.

Module BackupConfig.
Record t : Type := mk {
  default_schedule : string;
  default_retention_days : Z;
  successful_jobs_history_limit : Z;
  failed_jobs_history_limit : Z;
  backup_timeout_seconds : Z;
  memory_request : string;
  memory_limit : string;
  cpu_request : string;
  cpu_limit : string;
  temp_storage_size : string
}.
Definition default : t := {|
  default_schedule := "0 2 * * *";
  default_retention_days := 7;
  successful_jobs_history_limit := 3;
  failed_jobs_history_limit := 1;
  backup_timeout_seconds := 3600;
  memory_request := "256Mi";
  memory_limit := "512Mi";
  cpu_request := "100m";
  cpu_limit := "500m";
  temp_storage_size := "10Gi"
|}.
Definition set_default_schedule (s : string) (b : t) : t :=
  mk s (default_retention_days b) (successful_jobs_history_limit b)
     (failed_jobs_history_limit b) (backup_timeout_seconds b)
     (memory_request b) (memory_limit b) (cpu_request b) (cpu_limit b)
     (temp_storage_size b).
Definition set_default_retention_days (n : Z) (b : t) : t :=
  mk (default_schedule b) n (successful_jobs_history_limit b)
     (failed_jobs_history_limit b) (backup_timeout_seconds b)
     (memory_request b) (memory_limit b) (cpu_request b) (cpu_limit b)
     (temp_storage_size b).
End BackupConfig.

(** [os.environ], and [os.getenv] with and without a default. *)
Abbreviation environment := (gmap string string).

Definition getenv (env : environment) (k : string) : option string := env !! k.

Definition getenv_default (env : environment) (k default : string) : string :=
  match env !! k with
  | Some v => v
  | None => default
  end.

(** [s.lower()] on ASCII letters. *)
Definition lower_ascii (c : ascii) : ascii :=
  let n := nat_of_ascii c in
  if ((65 <=? n) && (n <=? 90))%nat then ascii_of_nat (n + 32) else c.

Fixpoint lower (s : string) : string :=
  match s with
  | EmptyString => EmptyString
  | String c r => String (lower_ascii c) (lower r)
  end.

(** [int(s)], as CPython 3.11 reads a string in base 10
    ([PyLong_FromUnicodeObject]).  The text of an environment variable is
    UTF-8.  Every character beyond ASCII is first replaced: white space by
    a blank, a decimal digit of any script by its ASCII digit, anything
    else by [?].  Then surrounding white space is ignored, and what is left
    must be an optional sign and decimal digits, where single underscores
    may separate digits; more than [int_max_str_digits] digits are
    refused.  [None] stands for the [ValueError] of a string that is not
    read as a number. *)

(** The white space of [Py_ISSPACE]: blank, tab, line feed, vertical tab,
    form feed, carriage return. *)
Definition is_space (c : ascii) : bool :=
  let n := nat_of_ascii c in
  ((n =? 32) || ((9 <=? n) && (n <=? 13)))%nat.

(** The white space beyond ASCII ([Py_UNICODE_ISSPACE]). *)
Definition unicode_space (cp : N) : bool :=
  existsb (N.eqb cp)
    [0x85; 0xA0; 0x1680; 0x2000; 0x2001; 0x2002; 0x2003; 0x2004; 0x2005; 0x2006;
     0x2007; 0x2008; 0x2009; 0x200A; 0x2028; 0x2029; 0x202F; 0x205F; 0x3000]%N.

(** The code points of the digit zero in the scripts of Unicode 14: the
    digits one to nine follow each of them. *)
Definition decimal_zeros : list N :=
  [0x30; 0x660; 0x6F0; 0x7C0; 0x966; 0x9E6; 0xA66; 0xAE6; 0xB66; 0xBE6; 0xC66;
   0xCE6; 0xD66; 0xDE6; 0xE50; 0xED0; 0xF20; 0x1040; 0x1090; 0x17E0; 0x1810;
   0x1946; 0x19D0; 0x1A80; 0x1A90; 0x1B50; 0x1BB0; 0x1C40; 0x1C50; 0xA620;
   0xA8D0; 0xA900; 0xA9D0; 0xA9F0; 0xAA50; 0xABF0; 0xFF10; 0x104A0; 0x10D30;
   0x11066; 0x110F0; 0x11136; 0x111D0; 0x112F0; 0x11450; 0x114D0; 0x11650;
   0x116C0; 0x11730; 0x118E0; 0x11950; 0x11C50; 0x11D50; 0x11DA0; 0x16A60;
   0x16AC0; 0x16B50; 0x1D7CE; 0x1D7D8; 0x1D7E2; 0x1D7EC; 0x1D7F6; 0x1E140;
   0x1E2F0; 0x1E950; 0x1FBF0]%N.

(** [Py_UNICODE_TODECIMAL]. *)
Definition unicode_decimal (cp : N) : option N :=
  match List.find (fun z => (z <=? cp) && (cp <? z + 10))%N decimal_zeros with
  | Some z => Some (cp - z)%N
  | None => None
  end.

(** A byte [10xxxxxx] that continues a UTF-8 sequence. *)
Definition continuation (c : ascii) : option N :=
  let b := N_of_ascii c in
  if ((0x80 <=? b) && (b <=? 0xBF))%N then Some (b - 0x80)%N else None.

(** The code points of a UTF-8 text; [None] when the bytes are not UTF-8
    (sequences that are too long for their code point, surrogates and
    code points beyond U+10FFFF included).  Python keeps such bytes as lone
    surrogates, which are neither digits nor white space. *)
Fixpoint utf8_decode (s : string) : option (list N) :=
  match s with
  | EmptyString => Some []
  | String c0 r =>
      let b0 := N_of_ascii c0 in
      if (b0 <? 0x80)%N then option_map (cons b0) (utf8_decode r)
      else if (b0 <? 0xC2)%N then None
      else if (b0 <? 0xE0)%N then
        match r with
        | String c1 r1 =>
            match continuation c1 with
            | Some x1 => option_map (cons ((b0 - 0xC0) * 64 + x1)%N) (utf8_decode r1)
            | None => None
            end
        | _ => None
        end
      else if (b0 <? 0xF0)%N then
        match r with
        | String c1 (String c2 r2) =>
            match continuation c1, continuation c2 with
            | Some x1, Some x2 =>
                let cp := ((b0 - 0xE0) * 4096 + x1 * 64 + x2)%N in
                if ((cp <? 0x800) || ((0xD800 <=? cp) && (cp <=? 0xDFFF)))%N then None
                else option_map (cons cp) (utf8_decode r2)
            | _, _ => None
            end
        | _ => None
        end
      else if (b0 <? 0xF5)%N then
        match r with
        | String c1 (String c2 (String c3 r3)) =>
            match continuation c1, continuation c2, continuation c3 with
            | Some x1, Some x2, Some x3 =>
                let cp := ((b0 - 0xF0) * 262144 + x1 * 4096 + x2 * 64 + x3)%N in
                if ((cp <? 0x10000) || (0x10FFFF <? cp))%N then None
                else option_map (cons cp) (utf8_decode r3)
            | _, _, _ => None
            end
        | _ => None
        end
      else None
  end.

(** What stands for a character when the number is read
    ([_PyUnicode_TransformDecimalAndSpaceToASCII]). *)
Definition ascii_of_code_point (cp : N) : ascii :=
  if (cp <? 127)%N then ascii_of_N cp
  else if unicode_space cp then " "%char
  else match unicode_decimal cp with
       | Some d => ascii_of_N (48 + d)
       | None => "?"%char
       end.

Definition decimal_and_space_to_ascii (s : string) : option string :=
  option_map (fun cps => string_of_list_ascii (map ascii_of_code_point cps)) (utf8_decode s).

Definition digit_of (c : ascii) : option Z :=
  let n := nat_of_ascii c in
  if ((48 <=? n) && (n <=? 57))%nat then Some (Z.of_nat n - 48) else None.

Fixpoint lstrip (s : string) : string :=
  match s with
  | String c r => if is_space c then lstrip r else s
  | EmptyString => EmptyString
  end.

Fixpoint rstrip (s : string) : string :=
  match s with
  | EmptyString => EmptyString
  | String c r =>
      match rstrip r with
      | EmptyString => if is_space c then EmptyString else String c EmptyString
      | r' => String c r'
      end
  end.

Fixpoint parse_digits (s : string) (acc : Z) (after_digit : bool) : option Z :=
  match s with
  | EmptyString => if after_digit then Some acc else None
  | String c r =>
      match digit_of c with
      | Some d => parse_digits r (10 * acc + d) true
      | None =>
          if (Ascii.eqb c "_" && after_digit)%bool then parse_digits r acc false
          else None
      end
  end.

(** [sys.get_int_max_str_digits()], as the interpreter starts. *)
Definition int_max_str_digits : N := 4300.

(** The digits of a numeral: sign and underscores do not count. *)
Fixpoint count_digits (s : string) : N :=
  match s with
  | EmptyString => 0
  | String c r =>
      match digit_of c with
      | Some _ => N.succ (count_digits r)
      | None => count_digits r
      end
  end.

Definition int_of_ascii (s : string) : option Z :=
  let '(negative, digits) :=
    match rstrip (lstrip s) with
    | String "-" r => (true, r)
    | String "+" r => (false, r)
    | r => (false, r)
    end in
  match parse_digits digits 0 false with
  | Some n =>
      if (int_max_str_digits <? count_digits digits)%N then None
      else Some (if negative then - n else n)
  | None => None
  end.

Definition int_of_str (s : string) : option Z :=
  match decimal_and_space_to_ascii s with
  | Some text => int_of_ascii text
  | None => None
  end.

Module OperatorConfig.
Record t : Type := mk {
  name : string;
  version : string;
  namespace : option string;
  database : DatabaseConfig.t;
  storage : StorageConfig.t;
  backup : BackupConfig.t;
  reconciliation_interval : Z;
  log_level : string;
  enable_webhooks : bool;
  enable_metrics : bool
}.

(** [cls()]: the field defaults; three of them read the environment. *)
Definition default (env : environment) : t := {|
  name := "db-backup-operator";
  version := "0.1.0";
  namespace := None;
  database := DatabaseConfig.default;
  storage := StorageConfig.default;
  backup := BackupConfig.default;
  reconciliation_interval := 300;
  log_level := getenv_default env "LOG_LEVEL" "INFO";
  enable_webhooks := String.eqb (lower (getenv_default env "ENABLE_WEBHOOKS" "false")) "true";
  enable_metrics := String.eqb (lower (getenv_default env "ENABLE_METRICS" "false")) "true"
|}.

Definition set_namespace (ns : option string) (c : t) : t :=
  mk (name c) (version c) ns (database c) (storage c) (backup c)
     (reconciliation_interval c) (log_level c) (enable_webhooks c) (enable_metrics c).

Definition set_backup (b : BackupConfig.t) (c : t) : t :=
  mk (name c) (version c) (namespace c) (database c) (storage c) b
     (reconciliation_interval c) (log_level c) (enable_webhooks c) (enable_metrics c).

(** [from_env]: an environment variable overrides a default only when
    it is set and not empty; a retention that is not a number is
    ignored. *)
Definition from_env (env : environment) : t :=
  let config := default env in
  let config :=
    match getenv env "OPERATOR_NAMESPACE" with
    | Some ns => if String.eqb ns "" then config else set_namespace (Some ns) config
    | None => config
    end in
  let config :=
    match getenv env "DEFAULT_BACKUP_SCHEDULE" with
    | Some schedule =>
        if String.eqb schedule "" then config
        else set_backup (BackupConfig.set_default_schedule schedule (backup config)) config
    | None => config
    end in
  let config :=
    match getenv env "DEFAULT_RETENTION_DAYS" with
    | Some retention =>
        if String.eqb retention "" then config
        else match int_of_str retention with
             | Some n => set_backup (BackupConfig.set_default_retention_days n (backup config)) config
             | None => config
             end
    | None => config
    end in
  config.

Definition validate (self : t) : exn + unit :=
  if reconciliation_interval self <? 60 then
    inl (ValueError "Reconciliation interval must be at least 60 seconds")
  else if BackupConfig.default_retention_days (backup self) <? 1 then
    inl (ValueError "Retention days must be at least 1")
  else if BackupConfig.backup_timeout_seconds (backup self) <? 60 then
    inl (ValueError "Backup timeout must be at least 60 seconds")
  else inr tt.

(** [images.get(db_type, images['postgres'])]: the default is evaluated
    first, so a table without a postgres entry raises. *)
Definition get_database_image (self : t) (db_type : pyval) : exn + string :=
  match DatabaseConfig.images (database self) !! "postgres" with
  | None => inl (KeyError "postgres")
  | Some fallback =>
      match lookup_val (DatabaseConfig.images (database self)) db_type with
      | Some image => inr image
      | None => inr fallback
      end
  end.

Definition get_default_port (self : t) (db_type : pyval) : Z :=
  match lookup_val (DatabaseConfig.default_ports (database self)) db_type with
  | Some p => p
  | None => 5432
  end.

Definition get_default_region (self : t) (storage_type : pyval) : string :=
  match lookup_val (StorageConfig.default_regions (storage self)) storage_type with
  | Some r => r
  | None => "us-east-1"
  end.

Definition is_database_supported (self : t) (db_type : pyval) : bool :=
  in_strs db_type (DatabaseConfig.supported_types (database self)).

Definition is_storage_supported (self : t) (storage_type : pyval) : bool :=
  in_strs storage_type (StorageConfig.supported_types (storage self)).
End OperatorConfig.

(** The state of the operator process that the configuration code touches:
    the module-level [_config] and the environment. *)
Record process : Type := mkProcess {
  _config : option OperatorConfig.t;
  environ : environment
}.

(** [get_config]: the singleton is built on first use.  The global is
    assigned before it is validated. *)
Definition get_config : M process OperatorConfig.t :=
  fun p =>
    match _config p with
    | Some c => (inr c, p)
    | None =>
        let c := OperatorConfig.from_env (environ p) in
        let p' := mkProcess (Some c) (environ p) in
        match OperatorConfig.validate c with
        | inl e => (inl e, p')
        | inr _ => (inr c, p')
        end
    end.

(** [set_config]: validated first, assigned only when valid. *)
Definition set_config (config : OperatorConfig.t) : M process unit :=
  fun p =>
    match OperatorConfig.validate config with
    | inl e => (inl e, p)
    | inr _ => (inr tt, mkProcess (Some config) (environ p))
    end.

End Config.

(** * operator/templates.py *)

(** The documents the operator builds (a CronJob manifest, handler return
    values): dictionaries keep the order in which their keys are written. *)
Module Doc.
Import Py.

Inductive manifest : Type :=
| MVal (v : pyval)
| MList (l : list manifest)
| MDict (d : list (string * manifest)).

Definition MStr (s : string) : manifest := MVal (PStr s).
Definition MInt (z : Z) : manifest := MVal (PInt z).

(** Lookup of a key in an association list. *)
Fixpoint assoc {A : Type} (k : string) (d : list (string * A)) : option A :=
  match d with
  | [] => None
  | (k', v) :: r => if String.eqb k' k then Some v else assoc k r
  end.

(** [m[k]] on a dictionary. *)
Definition field (k : string) (m : manifest) : option manifest :=
  match m with
  | MDict d => assoc k d
  | _ => None
  end.

(** [m[i]] on a list. *)
Definition item (i : nat) (m : manifest) : option manifest :=
  match m with
  | MList l => nth_error l i
  | _ => None
  end.

(** [m[k1][k2]...]. *)
Fixpoint path (ks : list string) (m : manifest) : option manifest :=
  match ks with
  | [] => Some m
  | k :: r =>
      match field k m with
      | Some m' => path r m'
      | None => None
      end
  end.

(** The elements of a list document. *)
Definition items (m : manifest) : list manifest :=
  match m with
  | MList l => l
  | _ => []
  end.

End Doc.

Module ManifestTemplates.
Import Py Eff Config Doc.

(** Database-specific backup commands. *)
Definition get_backup_commands : gmap string string :=
  {[ "postgres" := "pg_dump -h {host} -U $DB_USER -d {database} | gzip > /backup/backup-$(date +%Y%m%d-%H%M%S).sql.gz";
     "mysql" := "mysqldump -h {host} -u $DB_USER -p$DB_PASSWORD {database} | gzip > /backup/backup-$(date +%Y%m%d-%H%M%S).sql.gz";
     "mongodb" := "mongodump --host {host} --db {database} --archive=/backup/backup-$(date +%Y%m%d-%H%M%S).archive --gzip" ]}.

(** [retention + 1] on the values of the model: defined on integers (a
    boolean is an integer); [None] and a string raise [TypeError] with the
    message of the interpreter.  A retention with a fraction, on which the
    addition of the source is defined too, is not a value of the model. *)
Definition succ_val (v : pyval) : exn + Z :=
  match v with
  | PInt z => inr (z + 1)
  | PBool b => inr (Z.b2z b + 1)
  | PNone => inl (TypeError "unsupported operand type(s) for +: 'NoneType' and 'int'")
  | PStr _ =>
      inl (TypeError ("can only concatenate str (not " ++ dquote ++ "int" ++ dquote ++ ") to str"))
  end.

Definition newline : string := String (ascii_of_nat 10) EmptyString.

(** The storage prefix [s3://{bucket}/{namespace}/{name}/]. *)
Definition s3_prefix (bucket : pyval) (namespace name : string) : string :=
  "s3://" ++ str bucket ++ "/" ++ namespace ++ "/" ++ name ++ "/".

(** Upload and retention cleanup command.  In the source this is one
    triple-quoted f-string: the backslash at the end of its first line
    joins the two command lines, [{{] and [}}] are literal braces. *)
Definition get_upload_command (bucket : pyval) (namespace name : string) (retention : pyval)
  : exn + string :=
  k ← succ_val retention;
  mret (newline ++
        "        aws s3 cp /backup/*.gz " ++ s3_prefix bucket namespace name ++ " && " ++
        "        aws s3 ls " ++ s3_prefix bucket namespace name ++
        " | sort -r | tail -n +" ++ str_of_Z k ++
        " | awk '{print $4}' | xargs -I {} aws s3 rm " ++ s3_prefix bucket namespace name ++ "{}" ++
        newline ++ "        ").

(** Environment variables for the backup container. *)
Definition _get_container_env (db_type db_creds_secret storage_creds_secret storage_region : pyval)
  : list manifest :=
  let env_vars :=
    [ MDict [("name", MStr "DB_USER");
             ("valueFrom", MDict [("secretKeyRef",
                MDict [("name", MVal db_creds_secret); ("key", MStr "username")])])];
      MDict [("name", MStr "AWS_ACCESS_KEY_ID");
             ("valueFrom", MDict [("secretKeyRef",
                MDict [("name", MVal storage_creds_secret); ("key", MStr "access-key")])])];
      MDict [("name", MStr "AWS_SECRET_ACCESS_KEY");
             ("valueFrom", MDict [("secretKeyRef",
                MDict [("name", MVal storage_creds_secret); ("key", MStr "secret-key")])])];
      MDict [("name", MStr "AWS_DEFAULT_REGION");
             ("value", MVal storage_region)] ] in
  (* Add password for MySQL/Postgres (MongoDB uses different auth) *)
  if in_strs db_type ["postgres"; "mysql"] then
    list_insert_at 1
      (MDict [("name", MStr "DB_PASSWORD");
              ("valueFrom", MDict [("secretKeyRef",
                 MDict [("name", MVal db_creds_secret); ("key", MStr "password")])])])
      env_vars
  else env_vars.

(** The backup command of an engine: its own template, or the postgres
    one, with host and database name filled in. *)
Definition backup_command (db_type db_host db_name : pyval) : exn + string :=
  let backup_commands := get_backup_commands in
  match backup_commands !! "postgres" with
  | None => inl (KeyError "postgres")
  | Some fallback =>
      let backup_cmd :=
        match lookup_val backup_commands db_type with
        | Some t => t
        | None => fallback
        end in
      format backup_cmd {[ "host" := db_host; "database" := db_name ]}
  end.

(** CronJob manifest for a database backup: what [cronjob_manifest]
    computes once it holds the configuration. *)
Definition cronjob_manifest_with (config : OperatorConfig.t) (name namespace : string)
    (schedule : pyval) (database storage : dict) (retention : pyval) : exn + manifest :=
  db_type ← getitem database "type";
  db_host ← getitem database "host";
  db_name ← getitem database "name";
  let db_creds_secret := get_default database "credentialsSecret" (PStr (name ++ "-db-creds")) in
  storage_bucket ← getitem storage "bucket";
  storage_type ← getitem storage "type";
  let storage_region :=
    get_default storage "region" (PStr (OperatorConfig.get_default_region config storage_type)) in
  let storage_creds_secret :=
    get_default storage "credentialsSecret" (PStr (name ++ "-storage-creds")) in
  backup_cmd ← backup_command db_type db_host db_name;
  upload_cmd ← get_upload_command storage_bucket namespace name retention;
  let full_command := backup_cmd ++ " && " ++ upload_cmd in
  image ← OperatorConfig.get_database_image config db_type;
  let backup := OperatorConfig.backup config in
  mret (MDict [
    ("apiVersion", MStr "batch/v1");
    ("kind", MStr "CronJob");
    ("metadata", MDict [
      ("name", MStr (name ++ "-backup"));
      ("namespace", MStr namespace);
      ("labels", MDict [
        ("app", MStr "database-backup");
        ("backup-name", MStr name);
        ("managed-by", MStr (OperatorConfig.name config));
        ("version", MStr (OperatorConfig.version config))])]);
    ("spec", MDict [
      ("schedule", MVal schedule);
      ("successfulJobsHistoryLimit", MInt (BackupConfig.successful_jobs_history_limit backup));
      ("failedJobsHistoryLimit", MInt (BackupConfig.failed_jobs_history_limit backup));
      ("concurrencyPolicy", MStr "Forbid");
      ("jobTemplate", MDict [
        ("spec", MDict [
          ("backoffLimit", MInt 2);
          ("activeDeadlineSeconds", MInt (BackupConfig.backup_timeout_seconds backup));
          ("template", MDict [
            ("metadata", MDict [
              ("labels", MDict [
                ("app", MStr "database-backup");
                ("backup-name", MStr name)])]);
            ("spec", MDict [
              ("restartPolicy", MStr "OnFailure");
              ("containers", MList [MDict [
                ("name", MStr "backup");
                ("image", MStr image);
                ("command", MList [MStr "/bin/sh"; MStr "-c"]);
                ("args", MList [MStr full_command]);
                ("env", MList (_get_container_env db_type db_creds_secret
                                 storage_creds_secret storage_region));
                ("volumeMounts", MList [MDict [
                  ("name", MStr "backup-storage");
                  ("mountPath", MStr "/backup")]]);
                ("resources", MDict [
                  ("requests", MDict [
                    ("memory", MStr (BackupConfig.memory_request backup));
                    ("cpu", MStr (BackupConfig.cpu_request backup))]);
                  ("limits", MDict [
                    ("memory", MStr (BackupConfig.memory_limit backup));
                    ("cpu", MStr (BackupConfig.cpu_limit backup))])])]]);
              ("volumes", MList [MDict [
                ("name", MStr "backup-storage");
                ("emptyDir", MDict [
                  ("sizeLimit", MStr (BackupConfig.temp_storage_size backup))])]])])])])])])]).

(** [cronjob_manifest]: the configuration is the singleton of the process. *)
Definition cronjob_manifest (name namespace : string) (schedule : pyval)
    (database storage : dict) (retention : pyval) : M process manifest :=
  config ← get_config;
  lift (cronjob_manifest_with config name namespace schedule database storage retention).

(** The backup container of a manifest and three of its fields. *)
Definition container (m : manifest) : option manifest :=
  c ← path ["spec"; "jobTemplate"; "spec"; "template"; "spec"; "containers"] m;
  item 0 c.

Definition container_image (m : manifest) : option manifest := c ← container m; field "image" c.
Definition container_args (m : manifest) : option manifest := c ← container m; field "args" c.
Definition container_env (m : manifest) : option manifest := c ← container m; field "env" c.

End ManifestTemplates.

(** * The cleanup pipeline of the upload command, run on a simulated listing

    The second command line that [get_upload_command] writes is a pipeline
    of five standard tools.  [stage] names them, [render] prints them the
    way the template does, and [run] gives them their meaning on lines of
    text: [aws s3 ls] prints the simulated listing, the last stage yields
    the objects handed to [aws s3 rm].  Bucket, namespace and name are
    taken to be single shell words: how the shell would split or expand
    other text is not modelled. *)

Module Shell.
Import Py Doc ManifestTemplates.

Inductive stage : Type :=
| AwsS3Ls (uri : string)       (* aws s3 ls URI *)
| SortR                        (* sort -r *)
| TailFrom (k : Z)             (* tail -n +K *)
| AwkPrint (n : nat)           (* awk '{print $N}' *)
| XargsAwsS3Rm (uri : string). (* xargs -I {} aws s3 rm URI{} *)



(** The pipeline behind the [&&] of the upload command, for the line
    number [k] given to [tail]. *)
Definition cleanup_pipeline (bucket : pyval) (namespace name : string) (k : Z) : list stage :=
  [ AwsS3Ls (s3_prefix bucket namespace name);
    SortR;
    TailFrom k;
    AwkPrint 4;
    XargsAwsS3Rm (s3_prefix bucket namespace name) ].

(** ** Sorting lines in descending byte order *)

Section SortDesc.
Context {A : Type} (line : A -> string).

Fixpoint insert_desc (x : A) (l : list A) : list A :=
  match l with
  | [] => [x]
  | y :: r => if String.leb (line y) (line x) then x :: l else y :: insert_desc x r
  end.

Fixpoint sort_desc (l : list A) : list A :=
  match l with
  | [] => []
  | x :: r => insert_desc x (sort_desc r)
  end.
End SortDesc.

(** ** Fields of a line, as awk splits them *)

Definition is_blank (c : ascii) : bool :=
  let n := nat_of_ascii c in ((n =? 32) || (n =? 9) || (n =? 10))%nat.

Definition is_empty (s : string) : bool :=
  match s with
  | EmptyString => true
  | _ => false
  end.

(** [cur] is the field being read. *)
Fixpoint fields_go (s cur : string) : list string :=
  match s with
  | EmptyString => if is_empty cur then [] else [cur]
  | String c r =>
      if is_blank c
      then if is_empty cur then fields_go r "" else cur :: fields_go r ""
      else fields_go r (cur ++ String c "")
  end.

Definition fields (s : string) : list string := fields_go s "".

(** [$n]: the whole line for [n = 0], the empty string past the last field. *)
Definition awk_field (n : nat) (l : string) : string :=
  match n with
  | O => l
  | S m => nth m (fields l) ""
  end.

(** ** Items of the input, as [xargs -I {}] reads them

    GNU xargs reads its input character by character ([read_line] of
    findutils 4.9).  With [-I] an item is a line: white space before it is
    skipped, blanks inside it are kept.  A backslash is dropped and the
    character after it taken as it is, a line feed included; single and
    double quotes are dropped and what they enclose is taken as it is; a
    quote still open at the end of its line is an error that stops xargs.
    A line without an item is skipped, an empty item written with quotes is
    not.  (The limit on the length of a command line is not modelled.) *)
Inductive xargs_state : Type :=
| XSpace                 (* before the item *)
| XNorm                  (* inside the item *)
| XQuote (quotc : ascii) (* inside quotes *)
| XBackslash.            (* after a backslash *)

(** The white space of C's [isspace]. *)
Definition isspace (c : ascii) : bool :=
  let n := nat_of_ascii c in ((n =? 32) || ((9 <=? n) && (n <=? 13)))%nat.

Definition is_newline (c : ascii) : bool := (nat_of_ascii c =? 10)%nat.
Definition is_backslash (c : ascii) : bool := (nat_of_ascii c =? 92)%nat.
Definition is_quote (c : ascii) : bool :=
  let n := nat_of_ascii c in ((n =? 39) || (n =? 34))%nat.

(** The items read from [input], and whether the input was read to its
    end: [false] when xargs stopped at an unmatched quote, after the items
    before it.  [linebuf] is the item being read, [seen_arg] tells whether
    any of it has been seen. *)
Fixpoint xargs_read (input : string) (state : xargs_state) (seen_arg : bool) (linebuf : string)
  : list string * bool :=
  match input with
  | EmptyString =>
      if is_empty linebuf then ([], true)
      else match state with
           | XQuote _ => ([], false)
           | _ => ([linebuf], true)
           end
  | String c rest =>
      let norm :=
        if is_newline c then
          if is_empty linebuf && negb seen_arg then xargs_read rest XSpace seen_arg linebuf
          else let '(items, ok) := xargs_read rest XSpace false "" in (linebuf :: items, ok)
        else if is_backslash c then xargs_read rest XBackslash true linebuf
        else if is_quote c then xargs_read rest (XQuote c) true linebuf
        else xargs_read rest XNorm true (linebuf ++ String c "") in
      match state with
      | XSpace => if isspace c then xargs_read rest XSpace seen_arg linebuf else norm
      | XNorm => norm
      | XQuote quotc =>
          if is_newline c then ([], false)
          else if Ascii.eqb c quotc then xargs_read rest XNorm true linebuf
          else xargs_read rest (XQuote quotc) seen_arg (linebuf ++ String c "")
      | XBackslash => xargs_read rest XNorm seen_arg (linebuf ++ String c "")
      end
  end.

(** The text of a list of lines. *)
Fixpoint unlines (l : list string) : string :=
  match l with
  | [] => ""
  | x :: r => x ++ newline ++ unlines r
  end.

Definition xargs_items (input : list string) : list string * bool :=
  xargs_read (unlines input) XSpace false "".

(** ** Meaning of a stage and of a pipeline

    A stage turns its input lines into output lines and ends with or
    without an error.  [tail -n +K] starts at line [K] (at the first line
    for [K = 0]) and rejects a negative number.  [xargs -I {}] runs the
    command once for each item: its output here is the objects named to
    [aws s3 rm], in the order of the calls. *)
Definition run_stage (listing : list string) (st : stage) (input : list string)
  : option (list string * bool) :=
  match st with
  | AwsS3Ls _ => Some (listing, true)
  | SortR => Some (sort_desc id input, true)
  | TailFrom k => if k <? 0 then None else Some (skipn (Z.to_nat (k - 1)) input, true)
  | AwkPrint n => Some (map (awk_field n) input, true)
  | XargsAwsS3Rm uri =>
      let '(items, ok) := xargs_items input in Some (map (fun it => uri ++ it) items, ok)
  end.

(** The output of the last stage, and whether that stage ended without an
    error (the exit status of a pipeline is that of its last command). *)
Fixpoint run_from (listing : list string) (p : list stage) (input : list string * bool)
  : option (list string * bool) :=
  match p with
  | [] => Some input
  | st :: r =>
      match run_stage listing st (fst input) with
      | Some out => run_from listing r out
      | None => None
      end
  end.

Definition run (listing : list string) (p : list stage) : option (list string * bool) :=
  run_from listing p ([], true).

(** ** A simulated bucket listing

    [aws s3 ls] prints one line per object: the time of last modification
    ([YYYY-MM-DD HH:MM:SS]), the size right-aligned in ten columns, and
    the key. *)
Record s3_object : Type := mkObject {
  date : string;
  time : string;
  size : N;
  key : string
}.

Definition timestamp (o : s3_object) : string := date o ++ " " ++ time o.

Fixpoint spaces (n : nat) : string :=
  match n with
  | O => ""
  | S m => String " " (spaces m)
  end.

Definition rjust (width : nat) (s : string) : string :=
  spaces (width - String.length s) ++ s.

Definition ls_line (o : s3_object) : string :=
  timestamp o ++ " " ++ rjust 10 (str_of_Z (Z.of_N (size o))) ++ " " ++ key o.

Fixpoint no_blank (s : string) : bool :=
  match s with
  | EmptyString => true
  | String c r => negb (is_blank c) && no_blank r
  end.

(** A listed object: date and time have their fixed width, and neither
    they nor the key contain white space; the key is not empty. *)
Definition wf_object (o : s3_object) : bool :=
  (String.length (date o) =? 10)%nat && (String.length (time o) =? 8)%nat &&
  no_blank (date o) && no_blank (time o) &&
  no_blank (key o) && negb (is_empty (key o)).

(** The characters that [xargs] hands on as they are, and that [awk]
    keeps in a field: no white space, quote or backslash. *)
Definition plain_char (c : ascii) : bool :=
  negb (isspace c) && negb (is_backslash c) && negb (is_quote c).

Fixpoint plain (s : string) : bool :=
  match s with
  | EmptyString => true
  | String c r => plain_char c && plain r
  end.

(** A listed object whose key is written with plain characters only, as
    the keys [backup-YYYYmmdd-HHMMSS.sql.gz] of the dumps are. *)
Definition plain_object (o : s3_object) : bool := wf_object o && plain (key o).

(** The cleanup that [get_upload_command] generates for [retention], run
    on a bucket whose prefix lists [objects]: the arguments of the
    [aws s3 rm] calls, and whether [xargs] ended without an error.  [None]
    when the command cannot be built or a tool rejects its arguments. *)
Definition cleanup_run (bucket : pyval) (namespace name : string) (retention : pyval)
    (objects : list s3_object) : option (list string * bool) :=
  match succ_val retention with
  | inr k => run (map ls_line objects) (cleanup_pipeline bucket namespace name k)
  | inl _ => None
  end.

(** The delete set of that cleanup. *)
Definition cleanup_deletes (bucket : pyval) (namespace name : string) (retention : pyval)
    (objects : list s3_object) : option (list string) :=
  option_map fst (cleanup_run bucket namespace name retention objects).

End Shell.

(** * The cluster API and the handler framework, as the handlers use them *)

Module Kube.
Import Py Eff Doc.

(** [str(e)] of an [ApiException], as the Kubernetes client defines it:
    status and reason, then headers and body when present. *)
Definition str_ApiException (e : ApiException) : string :=
  "(" ++ str_of_Z (api_status e) ++ ")" ++ ManifestTemplates.newline ++
  "Reason: " ++ api_reason e ++ ManifestTemplates.newline ++
  match api_headers e with
  | Some h => "HTTP response headers: " ++ h ++ ManifestTemplates.newline
  | None => ""
  end ++
  match api_body e with
  | Some b => if String.eqb b "" then ""
              else "HTTP response body: " ++ b ++ ManifestTemplates.newline
  | None => ""
  end.

(** A point in time, known by its ISO 8601 rendering. *)
Record datetime : Type := mkDatetime { isoformat : string }.

(** What the handlers read of a CronJob: the time it was last scheduled and
    the references to its running jobs, each optional. *)
Record V1CronJobStatus : Type := mkStatus {
  last_schedule_time : option datetime;
  active : option (list string)
}.

Record V1CronJob : Type := mkCronJob { status : V1CronJobStatus }.

(** [BatchV1Api]: the three calls of the handlers, on a cluster of state
    [C].  A call answers or fails with an [ApiException]. *)
Record BatchV1Api (C : Type) : Type := mkApi {
  create_namespaced_cron_job :
    forall (namespace : string) (body : manifest), C -> (ApiException + unit) * C;
  delete_namespaced_cron_job :
    forall (name namespace propagation_policy : string), C -> (ApiException + unit) * C;
  read_namespaced_cron_job :
    forall (name namespace : string), C -> (ApiException + V1CronJob) * C
}.
Arguments create_namespaced_cron_job {C}.
Arguments delete_namespaced_cron_job {C}.
Arguments read_namespaced_cron_job {C}.

(** The calls a handler has made, oldest first. *)
Inductive api_call : Type :=
| CreateCronJob (namespace : string) (body : manifest)
| DeleteCronJob (name namespace propagation_policy : string)
| ReadCronJob (name namespace : string).

(** ** A simulated cluster

    CronJobs by namespace and name.  Creating an existing object is a
    conflict, deleting or reading a missing one is not found. *)
Abbreviation cluster := (gmap (string * string) (manifest * V1CronJobStatus)).

Definition not_found : ApiException := mkApiException 404 "Not Found" None None.
Definition conflict : ApiException := mkApiException 409 "Conflict" None None.
Definition unprocessable : ApiException := mkApiException 422 "Unprocessable Entity" None None.

Definition body_name (body : manifest) : option string :=
  match path ["metadata"; "name"] body with
  | Some (MVal (PStr n)) => Some n
  | _ => None
  end.

Definition simulated : BatchV1Api cluster := {|
  create_namespaced_cron_job := fun namespace body c =>
    match body_name body with
    | None => (inl unprocessable, c)
    | Some n =>
        match c !! (namespace, n) with
        | Some _ => (inl conflict, c)
        | None => (inr tt, <[(namespace, n) := (body, mkStatus None None)]> c)
        end
    end;
  delete_namespaced_cron_job := fun name namespace _ c =>
    match c !! (namespace, name) with
    | Some _ => (inr tt, delete (namespace, name) c)
    | None => (inl not_found, c)
    end;
  read_namespaced_cron_job := fun name namespace c =>
    match c !! (namespace, name) with
    | Some (_, st) => (inr (mkCronJob st), c)
    | None => (inl not_found, c)
    end
|}.

(** [kopf.adopt] for the resource being handled: here it records the owner
    in the metadata of the object. *)
Definition adopt_by (owner : string) (m : manifest) : manifest :=
  match m with
  | MDict d =>
      MDict (map (fun kv : string * manifest =>
                    if String.eqb (fst kv) "metadata"
                    then match snd kv with
                         | MDict md => (fst kv, MDict (md ++ [("ownerReferences", MList [MStr owner])]))
                         | _ => kv
                         end
                    else kv) d)
  | _ => m
  end.

End Kube.

(** * operator/handlers.py *)

Module Handlers.
Import Py Eff Config Doc ManifestTemplates Kube.

(** The [spec] of a DatabaseBackup resource: each top-level key may be
    absent. *)
Record backup_spec : Type := mkSpec {
  schedule : option pyval;
  database : option dict;
  storage : option dict;
  retention : option dict
}.

(** What a handler can read and change: the process state, the cluster
    behind the API client, the calls made so far and [patch.status]. *)
Record world (C : Type) : Type := mkWorld {
  proc : process;
  kube : C;
  calls : list api_call;
  patch_status : dict
}.
Arguments mkWorld {C}.
Arguments proc {C}.
Arguments kube {C}.
Arguments calls {C}.
Arguments patch_status {C}.

(** Validate DatabaseBackup spec using configuration: what
    [_validate_spec] checks once it holds the configuration. *)
Definition _validate_spec_with (config : OperatorConfig.t) (database storage : dict)
  : exn + unit :=
  (* Validate database type *)
  db_type ← getitem database "type";
  if negb (OperatorConfig.is_database_supported config db_type) then
    inl (PermanentError
           ("Unsupported database type: " ++ str db_type ++ ". " ++
            "Supported types: " ++
            join ", " (DatabaseConfig.supported_types (OperatorConfig.database config))))
  else
  (* Validate storage type *)
  storage_type ← getitem storage "type";
  if negb (OperatorConfig.is_storage_supported config storage_type) then
    inl (PermanentError
           ("Unsupported storage type: " ++ str storage_type ++ ". " ++
            "Supported types: " ++
            join ", " (StorageConfig.supported_types (OperatorConfig.storage config))))
  else
  (* Validate required fields *)
  if negb (truthy_opt (database !! "host")) then
    inl (PermanentError "Database host is required")
  else if negb (truthy_opt (database !! "name")) then
    inl (PermanentError "Database name is required")
  else if negb (truthy_opt (storage !! "bucket")) then
    inl (PermanentError "Storage bucket is required")
  else inr tt.

Definition _validate_spec (database storage : dict) : M process unit :=
  config ← get_config;
  lift (_validate_spec_with config database storage).

(** [spec[k]] for a top-level key. *)
Definition spec_item {A} (k : string) (o : option A) : exn + A :=
  match o with
  | Some v => inr v
  | None => inl (KeyError k)
  end.

(** [spec.get('retention', {}).get('keepLast', default)]. *)
Definition spec_keep_last (spec : backup_spec) (default : pyval) : pyval :=
  match retention spec with
  | Some r => get_default r "keepLast" default
  | None => default
  end.

Section WithCluster.
Context {C : Type}.
(** The API client and [kopf.adopt] for the resource being handled. *)
Variable api : BatchV1Api C.
Variable adopt : manifest -> manifest.

(** Run process-level code ([get_config] and what calls it). *)
Definition in_process {A} (c : M process A) : M (world C) A :=
  zoom proc (fun p w => mkWorld p (kube w) (calls w) (patch_status w)) c.

(** An API call: made on the cluster and recorded; its failure is
    raised. *)
Definition api_call_on {A} (what : api_call) (f : C -> (ApiException + A) * C)
  : M (world C) A :=
  fun w =>
    let '(r, c') := f (kube w) in
    (match r with
     | inr a => inr a
     | inl e => inl (ApiError e)
     end,
     mkWorld (proc w) c' (calls w ++ [what]) (patch_status w)).

(** [patch.status[k] = v]. *)
Definition patch_status_set (k : string) (v : pyval) : M (world C) unit :=
  modify (fun w => mkWorld (proc w) (kube w) (calls w) (<[k := v]> (patch_status w))).

(** Handler called when a DatabaseBackup resource is created. *)
Definition create_backup_job (spec : backup_spec) (name namespace : string)
  : M (world C) manifest :=
  config ← in_process get_config;
  (* Extract configuration with defaults from config *)
  let backup := OperatorConfig.backup config in
  let schedule := default (PStr (BackupConfig.default_schedule backup)) (schedule spec) in
  database ← lift (spec_item "database" (database spec));
  storage ← lift (spec_item "storage" (storage spec));
  let retention := spec_keep_last spec (PInt (BackupConfig.default_retention_days backup)) in
  (* Validate configuration *)
  _ ← in_process (_validate_spec database storage);
  (* Generate CronJob manifest using template *)
  cronjob ← in_process (cronjob_manifest name namespace schedule database storage retention);
  (* Apply CronJob to cluster *)
  let cronjob := adopt cronjob in  (* Set owner reference for garbage collection *)
  try_except_ApiException
    (_ ← api_call_on (CreateCronJob namespace cronjob)
           (create_namespaced_cron_job api namespace cronjob);
     mret (MDict [
       ("message", MStr ("Backup CronJob created with schedule: " ++ str schedule));
       ("cronjob", MStr (name ++ "-backup"));
       ("retention", MVal retention)]))
    (fun e => raise (PermanentError ("Cannot create CronJob: " ++ str_ApiException e))).

(** Handler called when a DatabaseBackup resource is updated. *)
Definition update_backup_job (spec : backup_spec) (name namespace : string)
  : M (world C) manifest :=
  config ← in_process get_config;
  let backup := OperatorConfig.backup config in
  try_except_ApiException
    ((* Delete existing CronJob *)
     _ ← api_call_on (DeleteCronJob (name ++ "-backup") namespace "Foreground")
           (delete_namespaced_cron_job api (name ++ "-backup") namespace "Foreground");
     (* Extract updated configuration with defaults *)
     let schedule := default (PStr (BackupConfig.default_schedule backup)) (schedule spec) in
     database ← lift (spec_item "database" (database spec));
     storage ← lift (spec_item "storage" (storage spec));
     let retention := spec_keep_last spec (PInt (BackupConfig.default_retention_days backup)) in
     (* Validate configuration *)
     _ ← in_process (_validate_spec database storage);
     (* Recreate with new configuration *)
     cronjob ← in_process (cronjob_manifest name namespace schedule database storage retention);
     let cronjob := adopt cronjob in
     _ ← api_call_on (CreateCronJob namespace cronjob)
           (create_namespaced_cron_job api namespace cronjob);
     mret (MDict [("message", MStr "Backup job updated successfully")]))
    (fun e => raise (TemporaryError ("Cannot update CronJob: " ++ str_ApiException e) 30)).

(** Handler called when a DatabaseBackup resource is deleted: the CronJob
    goes with its owner, nothing is called. *)
Definition delete_backup_job (name namespace : string) : M (world C) manifest :=
  mret (MDict [("message", MStr ("Backup job " ++ name ++ " deleted"))]).

(** Periodic check to update backup status. *)
Definition check_backup_status (name namespace : string) : M (world C) unit :=
  config ← in_process get_config;
  try_except_ApiException
    (cronjob ← api_call_on (ReadCronJob (name ++ "-backup") namespace)
                 (read_namespaced_cron_job api (name ++ "-backup") namespace);
     (* Update status with last backup time and job count *)
     _ ← match last_schedule_time (status cronjob) with
         | Some t =>
             _ ← patch_status_set "lastBackup" (PStr (isoformat t));
             patch_status_set "phase" (PStr "Active")
         | None => patch_status_set "phase" (PStr "Pending")
         end;
     (* Count active jobs *)
     match active (status cronjob) with
     | Some ((_ :: _) as jobs) => patch_status_set "activeJobs" (PInt (Z.of_nat (length jobs)))
     | _ => patch_status_set "activeJobs" (PInt 0)
     end)
    (fun e =>
       _ ← patch_status_set "phase" (PStr "Error");
       patch_status_set "error" (PStr (str_ApiException e))).

End WithCluster.

(** The status of the resource after the framework has applied the patch
    of a handler: a patched key takes its new value, every other key keeps
    the value it had. *)
Definition apply_patch (status patch : dict) : dict := patch ∪ status.

(** ** Registration of the handlers

    The decorator of each handler with the arguments it is given: the
    resource watched (group, version, plural), the [interval] of a timer
    in seconds, and the limit on the number of attempts ([retries]), which
    is [None] when the decorator does not give one. *)
Inductive decorator : Type := OnCreate | OnUpdate | OnDelete | Timer.

Record registration : Type := mkRegistration {
  decorated : decorator;
  resource : string * string * string;
  interval : option Z;
  retries : option Z
}.

Definition create_backup_job_registration : registration :=
  mkRegistration OnCreate ("backup.example.com", "v1", "databasebackups") None None.

Definition update_backup_job_registration : registration :=
  mkRegistration OnUpdate ("backup.example.com", "v1", "databasebackups") None None.

Definition delete_backup_job_registration : registration :=
  mkRegistration OnDelete ("backup.example.com", "v1", "databasebackups") None None.

Definition check_backup_status_registration : registration :=
  mkRegistration Timer ("backup.example.com", "v1", "databasebackups") (Some 300) None.

End Handlers.

(** * Vocabulary of the statements *)

Import Py Eff Config Doc ManifestTemplates Shell Kube Handlers.

(** The variable an environment entry defines. *)
Definition env_name (entry : manifest) : option manifest := field "name" entry.

(** The backup command of each engine, host and database name filled in. *)
Definition pg_dump_command (host database : pyval) : string :=
  "pg_dump -h " ++ str host ++ " -U $DB_USER -d " ++ str database ++
  " | gzip > /backup/backup-$(date +%Y%m%d-%H%M%S).sql.gz".

Definition mysqldump_command (host database : pyval) : string :=
  "mysqldump -h " ++ str host ++ " -u $DB_USER -p$DB_PASSWORD " ++ str database ++
  " | gzip > /backup/backup-$(date +%Y%m%d-%H%M%S).sql.gz".

Definition mongodump_command (host database : pyval) : string :=
  "mongodump --host " ++ str host ++ " --db " ++ str database ++
  " --archive=/backup/backup-$(date +%Y%m%d-%H%M%S).archive --gzip".

(** The engine types of the image table and of the command table. *)
Definition known_engine (t : pyval) : bool := in_strs t ["postgres"; "mysql"; "mongodb"].


(** [a] comes before [b] in descending order of their lines. *)
Definition desc {A : Type} (line : A -> string) (a b : A) : Prop :=
  String.leb (line b) (line a) = true.

(** The storage types of the configuration as shipped. *)
Definition known_storage (u : pyval) : bool := in_strs u ["s3"; "gcs"; "azure"].

(** A required field is present: the key is there and its value is not
    empty. *)
Definition present (d : dict) (k : string) : bool := truthy_opt (d !! k).

(** The checks of the validator in the order of the design document, each
    with the message of its failure, for a database of type [t] and a
    storage of type [u]. *)
Definition validation_checks (t u : pyval) (database storage : dict) : list (bool * string) :=
  [ (known_engine t,
     "Unsupported database type: " ++ str t ++ ". Supported types: postgres, mysql, mongodb");
    (known_storage u,
     "Unsupported storage type: " ++ str u ++ ". Supported types: s3, gcs, azure");
    (present database "host", "Database host is required");
    (present database "name", "Database name is required");
    (present storage "bucket", "Storage bucket is required") ].

(** The message of the first check that does not hold. *)
Fixpoint first_failure (checks : list (bool * string)) : option string :=
  match checks with
  | [] => None
  | (true, _) :: rest => first_failure rest
  | (false, msg) :: _ => Some msg
  end.

(** An outcome that is neither an API error nor a request to retry. *)
Definition local_outcome {A : Type} (r : exn + A) : Prop :=
  match r with
  | inl (ApiError _) | inl (TemporaryError _ _) => False
  | _ => True
  end.

(** ** Example inputs *)

(** The listing of a bucket prefix after three nightly backups, in the
    order the service happens to return it. *)
Definition example_objects : list s3_object :=
  [ mkObject "2024-01-02" "03:00:07" 52011 "backup-20240102-030000.sql.gz";
    mkObject "2024-01-01" "03:00:05" 51987 "backup-20240101-030000.sql.gz";
    mkObject "2024-01-03" "03:00:09" 52340 "backup-20240103-030000.sql.gz" ].

(** An operator that has started, on the cluster before any backup
    resource was created. *)
Definition example_process : process := mkProcess (Some (OperatorConfig.from_env ∅)) ∅.

Definition example_world : world cluster := mkWorld example_process ∅ [] ∅.

Definition example_database : dict :=
  {[ "type" := PStr "postgres"; "host" := PStr "db.internal"; "name" := PStr "orders" ]}.

Definition example_storage : dict := {[ "type" := PStr "s3"; "bucket" := PStr "backups" ]}.

Definition example_spec : backup_spec :=
  mkSpec (Some (PStr "0 3 * * *")) (Some example_database) (Some example_storage)
         (Some {[ "keepLast" := PInt 5 ]}).

(** The manifest of the example, owned by its backup resource. *)
Definition example_manifest : manifest :=
  match cronjob_manifest_with (OperatorConfig.from_env ∅) "orders-db" "prod" (PStr "0 3 * * *")
          example_database example_storage (PInt 5) with
  | inr m => adopt_by "orders-db" m
  | inl _ => MVal PNone
  end.

(** The cluster once the CronJob of the example exists. *)
Definition example_cluster : cluster :=
  {[ ("prod", "orders-db-backup") := (example_manifest, mkStatus None None) ]}.

(** The example with its database host removed: an invalid update. *)
Definition example_spec_no_host : backup_spec :=
  mkSpec (Some (PStr "0 3 * * *")) (Some (delete "host" example_database))
         (Some example_storage) (Some {[ "keepLast" := PInt 5 ]}).


(** The manifest of the example, as the builder returns it. *)
Definition example_built : manifest :=
  match cronjob_manifest_with (OperatorConfig.from_env ∅) "orders-db" "prod" (PStr "0 3 * * *")
          example_database example_storage (PInt 5) with
  | inr m => m
  | inl _ => MVal PNone
  end.

(** Equality of listed objects is decidable. *)
#[global] Instance s3_object_eq_dec : EqDecision s3_object.
Proof. solve_decision. Defined.

(** The example with its retention given as text. *)
Definition example_spec_text_retention : backup_spec :=
  mkSpec (Some (PStr "0 3 * * *")) (Some example_database) (Some example_storage)
         (Some {[ "keepLast" := PStr "5" ]}).

(** The status of a resource whose last status check failed. *)
Definition example_error_status : dict :=
  {[ "phase" := PStr "Error"; "error" := PStr (str_ApiException not_found) ]}.




(** The example with the type of its database removed. *)
Definition example_spec_no_type : backup_spec :=
  mkSpec (Some (PStr "0 3 * * *")) (Some (delete "type" example_database))
         (Some example_storage) (Some {[ "keepLast" := PInt 5 ]}).

(** A process that has not read its configuration yet, started with a
    retention of zero days in its environment. *)
Definition example_fresh_process : process :=
  mkProcess None {[ "DEFAULT_RETENTION_DAYS" := "0" ]}.

(** * Properties *)

(** ** Environment of the backup container *)

Lemma in_strs_postgres_mysql (v : pyval) :
  in_strs v ["postgres"; "mysql"] = true <-> v = PStr "postgres" \/ v = PStr "mysql".
Proof.
  unfold in_strs; simpl. destruct v as [ | b | z | s]; simpl;
    try (split; [discriminate | intros [H | H]; discriminate H]).
  rewrite !orb_true_iff, !String.eqb_eq. split.
  - intros [-> | [-> | H]]; [now left | now right | discriminate H].
  - intros [H | H]; injection H as ->; auto.
Qed.

(** C3.  The environment list has a [DB_PASSWORD] entry exactly when the
    engine type is postgres or mysql, and that entry is the reference to
    the key [password] of the database credentials secret; for mongodb the
    list is the four entries without it.  The database user (key
    [username] of the database credentials secret), the two storage keys
    (keys [access-key] and [secret-key] of the storage credentials secret)
    and the storage region (a literal value) are always there. *)
Theorem container_env_credentials (db_type db_creds storage_creds region : pyval) :
  let env := _get_container_env db_type db_creds storage_creds region in
  ((exists entry, In entry env /\ env_name entry = Some (MStr "DB_PASSWORD"))
     <-> (db_type = PStr "postgres" \/ db_type = PStr "mysql")) /\
  (In (MDict [("name", MStr "DB_PASSWORD");
              ("valueFrom", MDict [("secretKeyRef",
                 MDict [("name", MVal db_creds); ("key", MStr "password")])])]) env
     <-> (db_type = PStr "postgres" \/ db_type = PStr "mysql")) /\
  _get_container_env (PStr "mongodb") db_creds storage_creds region =
    [ MDict [("name", MStr "DB_USER");
             ("valueFrom", MDict [("secretKeyRef",
                MDict [("name", MVal db_creds); ("key", MStr "username")])])];
      MDict [("name", MStr "AWS_ACCESS_KEY_ID");
             ("valueFrom", MDict [("secretKeyRef",
                MDict [("name", MVal storage_creds); ("key", MStr "access-key")])])];
      MDict [("name", MStr "AWS_SECRET_ACCESS_KEY");
             ("valueFrom", MDict [("secretKeyRef",
                MDict [("name", MVal storage_creds); ("key", MStr "secret-key")])])];
      MDict [("name", MStr "AWS_DEFAULT_REGION"); ("value", MVal region)] ] /\
  In (MDict [("name", MStr "DB_USER");
             ("valueFrom", MDict [("secretKeyRef",
                MDict [("name", MVal db_creds); ("key", MStr "username")])])]) env /\
  In (MDict [("name", MStr "AWS_ACCESS_KEY_ID");
             ("valueFrom", MDict [("secretKeyRef",
                MDict [("name", MVal storage_creds); ("key", MStr "access-key")])])]) env /\
  In (MDict [("name", MStr "AWS_SECRET_ACCESS_KEY");
             ("valueFrom", MDict [("secretKeyRef",
                MDict [("name", MVal storage_creds); ("key", MStr "secret-key")])])]) env /\
  In (MDict [("name", MStr "AWS_DEFAULT_REGION"); ("value", MVal region)]) env.
Proof.
  intros env. subst env. unfold _get_container_env.
  pose proof (in_strs_postgres_mysql db_type) as Hiff.
  destruct (in_strs db_type ["postgres"; "mysql"]) eqn:Hin.
  - assert (Hpm : db_type = PStr "postgres" \/ db_type = PStr "mysql") by (now apply Hiff).
    unfold list_insert_at; simpl.
    repeat split; auto 10.
    eexists. split; [right; left; reflexivity | reflexivity].
  - assert (Hnot : ~ (db_type = PStr "postgres" \/ db_type = PStr "mysql")).
    { intros H. apply Hiff in H. discriminate H. }
    simpl. repeat split; auto 10; try (intros H; now destruct Hnot).
    + intros [entry [Hentry Hname]].
      repeat (destruct Hentry as [<- | Hentry]; [discriminate Hname | ]). destruct Hentry.
    + intros H. repeat (destruct H as [H | H]; [discriminate H | ]). destruct H.
Qed.

(** ** The backup command of each engine *)

Lemma backup_command_postgres h d :
  backup_command (PStr "postgres") h d = inr (pg_dump_command h d).
Proof. reflexivity. Qed.

Lemma backup_command_mysql h d :
  backup_command (PStr "mysql") h d = inr (mysqldump_command h d).
Proof. reflexivity. Qed.

Lemma backup_command_mongodb h d :
  backup_command (PStr "mongodb") h d = inr (mongodump_command h d).
Proof. reflexivity. Qed.

(** A key that is none of the three engines is in neither table. *)
Lemma known_engine_false (t : pyval) :
  known_engine t = false ->
  lookup_val get_backup_commands t = None /\
  lookup_val (DatabaseConfig.images DatabaseConfig.default) t = None.
Proof.
  unfold known_engine, in_strs. destruct t as [ | b | z | s]; simpl; auto.
  rewrite !orb_false_iff, !String.eqb_neq. intros (H1 & H2 & H3 & _).
  unfold get_backup_commands. simpl.
  rewrite !lookup_insert_ne, !lookup_singleton_ne by congruence. auto.
Qed.

Lemma known_engine_true (t : pyval) :
  known_engine t = true <-> t = PStr "postgres" \/ t = PStr "mysql" \/ t = PStr "mongodb".
Proof.
  unfold known_engine, in_strs. destruct t as [ | b | z | s]; simpl;
    try (split; [discriminate | intros [H | [H | H]]; discriminate H]).
  rewrite !orb_true_iff, !String.eqb_eq. split.
  - intros [-> | [-> | [-> | H]]]; auto. discriminate H.
  - intros [H | [H | H]]; injection H as ->; auto.
Qed.

Lemma backup_command_fallback t h d :
  known_engine t = false -> backup_command t h d = inr (pg_dump_command h d).
Proof.
  intros H. apply known_engine_false in H as [H _].
  unfold backup_command. rewrite H. reflexivity.
Qed.

Lemma backup_command_total t h d : exists cmd, backup_command t h d = inr cmd.
Proof.
  destruct (known_engine t) eqn:H.
  - apply known_engine_true in H as [-> | [-> | ->]]; eexists; reflexivity.
  - eexists. now apply backup_command_fallback.
Qed.

(** ** Shape of the manifest *)

Lemma get_config_set (c : OperatorConfig.t) (env : environment) :
  get_config (mkProcess (Some c) env) = (inr c, mkProcess (Some c) env).
Proof. reflexivity. Qed.

Lemma cronjob_manifest_set (c : OperatorConfig.t) (env : environment)
    name ns schedule database storage retention :
  cronjob_manifest name ns schedule database storage retention (mkProcess (Some c) env) =
  (cronjob_manifest_with c name ns schedule database storage retention, mkProcess (Some c) env).
Proof. reflexivity. Qed.

(** On complete inputs the builder returns, and the manifest has the
    name, namespace, schedule, image, command and environment computed
    from them. *)
Lemma cronjob_manifest_with_shape (c : OperatorConfig.t) (name ns : string) (schedule : pyval)
    (database storage : dict) (retention t host dbname bucket stype : pyval)
    (cmd upload image : string) :
  database !! "type" = Some t ->
  database !! "host" = Some host ->
  database !! "name" = Some dbname ->
  storage !! "bucket" = Some bucket ->
  storage !! "type" = Some stype ->
  backup_command t host dbname = inr cmd ->
  get_upload_command bucket ns name retention = inr upload ->
  OperatorConfig.get_database_image c t = inr image ->
  exists m,
    cronjob_manifest_with c name ns schedule database storage retention = inr m /\
    path ["metadata"; "name"] m = Some (MStr (name ++ "-backup")) /\
    path ["metadata"; "namespace"] m = Some (MStr ns) /\
    path ["spec"; "schedule"] m = Some (MVal schedule) /\
    container_image m = Some (MStr image) /\
    container_args m = Some (MList [MStr (cmd ++ " && " ++ upload)]) /\
    container_env m =
      Some (MList (_get_container_env t
                     (get_default database "credentialsSecret" (PStr (name ++ "-db-creds")))
                     (get_default storage "credentialsSecret" (PStr (name ++ "-storage-creds")))
                     (get_default storage "region"
                        (PStr (OperatorConfig.get_default_region c stype))))).
Proof.
  intros Ht Hh Hn Hb Hs Hcmd Hup Himg.
  unfold cronjob_manifest_with, getitem.
  rewrite Ht, Hh, Hn, Hb, Hs. cbn [mbind sum_bind].
  rewrite Hcmd, Hup, Himg. cbn [mbind sum_bind mret sum_ret].
  eexists. split; [reflexivity | ].
  repeat split; reflexivity.
Qed.


(** Whenever the builder returns, the manifest carries the name and the
    namespace computed from its arguments. *)
Lemma cronjob_manifest_with_metadata (c : OperatorConfig.t) (name ns : string)
    (schedule : pyval) (database storage : dict) (retention : pyval) (m : manifest) :
  cronjob_manifest_with c name ns schedule database storage retention = inr m ->
  path ["metadata"; "name"] m = Some (MStr (name ++ "-backup")) /\
  path ["metadata"; "namespace"] m = Some (MStr ns).
Proof.
  unfold cronjob_manifest_with, getitem.
  destruct (database !! "type") as [t | ]; cbn [mbind sum_bind]; [ | discriminate].
  destruct (database !! "host") as [h | ]; cbn [mbind sum_bind]; [ | discriminate].
  destruct (database !! "name") as [d | ]; cbn [mbind sum_bind]; [ | discriminate].
  destruct (storage !! "bucket") as [b | ]; cbn [mbind sum_bind]; [ | discriminate].
  destruct (storage !! "type") as [u | ]; cbn [mbind sum_bind]; [ | discriminate].
  destruct (backup_command t h d) as [e | cmd]; cbn [mbind sum_bind]; [discriminate | ].
  destruct (get_upload_command b ns name retention) as [e | upload];
    cbn [mbind sum_bind]; [discriminate | ].
  destruct (OperatorConfig.get_database_image c t) as [e | image];
    cbn [mbind sum_bind mret sum_ret]; [discriminate | ].
  intros H. injection H as <-. split; reflexivity.
Qed.

(** C5 (as amended).  On a process where [get_config] returns a
    configuration (the singleton is set, or it is not and the environment
    gives a valid configuration), two successive calls of the builder on
    the same inputs return the same outcome: the value of a function of
    that configuration and the inputs.  The first call leaves the singleton
    set, the second changes nothing, and with the singleton set the outcome
    does not depend on the environment. *)
Theorem cronjob_manifest_idempotent (p : process) (c : OperatorConfig.t) (env' : environment)
    (name ns : string) (schedule : pyval) (database storage : dict) (retention : pyval) :
  fst (get_config p) = inr c ->
  let build := cronjob_manifest name ns schedule database storage retention in
  let '(first, p1) := build p in
  let '(second, p2) := build p1 in
  first = second /\
  first = cronjob_manifest_with c name ns schedule database storage retention /\
  p1 = mkProcess (Some c) (environ p) /\ p2 = p1 /\
  fst (build (mkProcess (Some c) env')) = first.
Proof.
  intros Hc build. subst build.
  assert (Hp : get_config p = (inr c, mkProcess (Some c) (environ p))).
  { revert Hc. unfold get_config. destruct p as [[c0 | ] env]; cbn [_config environ fst].
    - intros H. now injection H as ->.
    - destruct (OperatorConfig.validate (OperatorConfig.from_env env)); cbn [fst];
        [discriminate | ]. intros H. now injection H as ->. }
  unfold cronjob_manifest at 1. unfold mbind at 1, M_bind. rewrite Hp.
  unfold lift at 1.
  rewrite (cronjob_manifest_set c (environ p)), (cronjob_manifest_set c env').
  repeat split; reflexivity.
Qed.

(** C5, on a process that has not read its configuration yet, with an
    empty environment. *)
Lemma cronjob_manifest_idempotent_witness :
  let build := cronjob_manifest "orders-db" "prod" (PStr "0 3 * * *")
                 example_database example_storage (PInt 5) in
  let '(first, p1) := build (mkProcess None ∅) in
  let '(second, p2) := build p1 in
  first = second /\
  first = cronjob_manifest_with (OperatorConfig.from_env ∅) "orders-db" "prod"
            (PStr "0 3 * * *") example_database example_storage (PInt 5) /\
  p1 = mkProcess (Some (OperatorConfig.from_env ∅)) (environ (mkProcess None ∅)) /\ p2 = p1 /\
  fst (build (mkProcess (Some (OperatorConfig.from_env ∅)) {[ "LOG_LEVEL" := "DEBUG" ]})) = first.
Proof.
  apply (cronjob_manifest_idempotent (mkProcess None ∅) (OperatorConfig.from_env ∅)
           {[ "LOG_LEVEL" := "DEBUG" ]} "orders-db" "prod" (PStr "0 3 * * *")
           example_database example_storage (PInt 5)).
  reflexivity.
Defined.

(** C5 as stated fails on a process that has not read its configuration
    yet: the first call of the builder sets the singleton, and when the
    environment gives an invalid configuration the first call raises the
    error of its validation while the second, on the same inputs, returns a
    manifest. *)
Lemma cronjob_manifest_first_call_differs :
  let build := cronjob_manifest "orders-db" "prod" (PStr "0 3 * * *")
                 example_database example_storage (PInt 5) in
  fst (build example_fresh_process) = inl (ValueError "Retention days must be at least 1") /\
  (exists m, fst (build (snd (build example_fresh_process))) = inr m) /\
  _config example_fresh_process = None /\
  _config (snd (build example_fresh_process)) =
    Some (OperatorConfig.from_env {[ "DEFAULT_RETENTION_DAYS" := "0" ]}).
Proof.
  cbv zeta. split; [vm_compute; reflexivity | ].
  split; [eexists; vm_compute; reflexivity | ].
  split; reflexivity.
Qed.



(** ** Byte order on strings *)

Lemma str_leb_refl (a : string) : String.leb a a = true.
Proof. apply Is_true_true. change (String.le a a). reflexivity. Qed.

Lemma str_leb_trans (a b c : string) :
  String.leb a b = true -> String.leb b c = true -> String.leb a c = true.
Proof.
  intros Hab Hbc. apply Is_true_true.
  change (String.le a c). transitivity b; apply Is_true_true; assumption.
Qed.

Lemma str_leb_false (a b : string) : String.leb a b = false -> String.leb b a = true.
Proof. intros H. destruct (String.leb_total a b) as [H' | H']; congruence. Qed.

Lemma str_app_cons (x : ascii) (a b : string) : String x a ++ b = String x (a ++ b).
Proof. reflexivity. Qed.

Lemma str_app_assoc (a b c : string) : (a ++ b) ++ c = a ++ b ++ c.
Proof. induction a as [ | x a IH]; [reflexivity | ]. now rewrite !str_app_cons, IH. Qed.

Lemma str_app_nil_r (a : string) : a ++ "" = a.
Proof. induction a as [ | x a IH]; [reflexivity | ]. now rewrite str_app_cons, IH. Qed.

Lemma str_length_app (a b : string) :
  String.length (a ++ b) = (String.length a + String.length b)%nat.
Proof. induction a as [ | x a IH]; [reflexivity | ]. rewrite str_app_cons. cbn. now rewrite IH. Qed.

(** The order of two strings decides the order of their prefixes of a
    common length. *)
Lemma str_leb_prefix (a b x y : string) :
  String.length a = String.length b ->
  String.leb (a ++ x) (b ++ y) = true -> String.leb a b = true.
Proof.
  revert b. induction a as [ | c a IH]; intros [ | d b] Hlen; try discriminate Hlen.
  - reflexivity.
  - injection Hlen as Hlen. specialize (IH b Hlen).
    unfold String.leb in *. rewrite !str_app_cons. cbn.
    destruct (Ascii.compare c d); auto.
Qed.

(** ** Insertion sort in descending order *)

Section SortDescFacts.
Context {A : Type} (line : A -> string).

Lemma insert_desc_perm (x : A) (l : list A) : Permutation (x :: l) (insert_desc line x l).
Proof.
  induction l as [ | y l IH]; cbn; [reflexivity | ].
  destruct (String.leb (line y) (line x)); [reflexivity | ].
  rewrite perm_swap. now apply perm_skip.
Qed.

Lemma sort_desc_perm (l : list A) : Permutation l (sort_desc line l).
Proof.
  induction l as [ | x l IH]; cbn; [reflexivity | ].
  rewrite <- insert_desc_perm. now apply perm_skip.
Qed.


Lemma insert_desc_sorted (x : A) (l : list A) :
  StronglySorted (desc line) l -> StronglySorted (desc line) (insert_desc line x l).
Proof.
  induction 1 as [ | y l Hl IH Hy]; cbn.
  - repeat constructor.
  - destruct (String.leb (line y) (line x)) eqn:Hyx.
    + constructor; [now constructor | ].
      constructor; [exact Hyx | ].
      eapply Forall_impl; [exact Hy | ]. intros z Hz. unfold desc in *.
      eapply str_leb_trans; eassumption.
    + constructor; [exact IH | ].
      apply (Permutation_Forall (insert_desc_perm x l)).
      constructor; [ | exact Hy]. now apply str_leb_false.
Qed.

Lemma sort_desc_sorted (l : list A) : StronglySorted (desc line) (sort_desc line l).
Proof.
  induction l as [ | x l IH]; cbn; [constructor | now apply insert_desc_sorted].
Qed.


Lemma insert_desc_map (x : A) (l : list A) :
  map line (insert_desc line x l) = insert_desc id (line x) (map line l).
Proof.
  induction l as [ | y l IH]; cbn; [reflexivity | ].
  unfold id. destruct (String.leb (line y) (line x)); cbn; [reflexivity | ].
  now rewrite IH.
Qed.

(** Sorting the lines is sorting the objects by their lines. *)
Lemma sort_desc_map (l : list A) :
  sort_desc id (map line l) = map line (sort_desc line l).
Proof.
  induction l as [ | x l IH]; cbn; [reflexivity | ].
  now rewrite IH, insert_desc_map.
Qed.
End SortDescFacts.

(** ** Fields of a listing line *)

Lemma is_empty_app (a b : string) : is_empty a = false -> is_empty (a ++ b) = false.
Proof. now destruct a. Qed.

(** A word without blanks is read into the current field. *)
Lemma fields_go_word (w rest cur : string) :
  no_blank w = true -> fields_go (w ++ rest) cur = fields_go rest (cur ++ w).
Proof.
  revert cur. induction w as [ | c w IH]; intros cur Hw.
  - now rewrite str_app_nil_r.
  - cbn in Hw. apply andb_true_iff in Hw as [Hc Hw].
    rewrite str_app_cons. cbn [fields_go].
    apply negb_true_iff in Hc. rewrite Hc.
    rewrite IH by assumption. now rewrite str_app_assoc.
Qed.

(** A blank ends a field that is not empty. *)
Lemma fields_go_blank (rest cur : string) :
  is_empty cur = false -> fields_go (String " " rest) cur = cur :: fields_go rest "".
Proof. intros H. cbn [fields_go]. change (is_blank " ") with true. cbv iota. now rewrite H. Qed.

Lemma fields_go_spaces (n : nat) (rest : string) :
  fields_go (spaces n ++ rest) "" = fields_go rest "".
Proof. induction n as [ | n IH]; [reflexivity | exact IH]. Qed.

Lemma fields_word (w rest : string) :
  no_blank w = true -> is_empty w = false ->
  fields_go (w ++ String " " rest) "" = w :: fields_go rest "".
Proof.
  intros Hw He. rewrite fields_go_word by assumption. change ("" ++ w) with w.
  now apply fields_go_blank.
Qed.

Lemma fields_last (w : string) :
  no_blank w = true -> is_empty w = false -> fields_go w "" = [w].
Proof.
  intros Hw He. rewrite <- (str_app_nil_r w) at 1.
  rewrite fields_go_word by assumption. change ("" ++ w) with w.
  cbn [fields_go]. now rewrite He.
Qed.

(** Decimal numerals are not empty and contain no blank. *)
Lemma string_of_uint_no_blank (d : Decimal.uint) :
  no_blank (NilEmpty.string_of_uint d) = true.
Proof. induction d; cbn; auto. Qed.

Lemma str_of_N_no_blank (n : N) : no_blank (str_of_Z (Z.of_N n)) = true.
Proof.
  unfold str_of_Z, NilZero.string_of_int. destruct (Z.to_int (Z.of_N n)) as [d | d] eqn:H.
  - unfold NilZero.string_of_uint. destruct d; try reflexivity; apply string_of_uint_no_blank.
  - destruct n; discriminate H.
Qed.

Lemma str_of_N_not_empty (n : N) : is_empty (str_of_Z (Z.of_N n)) = false.
Proof.
  unfold str_of_Z, NilZero.string_of_int. destruct (Z.to_int (Z.of_N n)) as [d | d] eqn:H.
  - unfold NilZero.string_of_uint. destruct d; reflexivity.
  - destruct n; discriminate H.
Qed.

Lemma not_empty_of_length (s : string) (n : nat) :
  String.length s = S n -> is_empty s = false.
Proof. now destruct s. Qed.

(** The fields of the line of a listed object: date, time, size, key. *)
Lemma fields_ls_line (o : s3_object) :
  wf_object o = true ->
  fields (ls_line o) = [date o; time o; str_of_Z (Z.of_N (size o)); key o].
Proof.
  unfold wf_object. rewrite !andb_true_iff, !Nat.eqb_eq, negb_true_iff.
  intros (((((Hd & Ht) & Hbd) & Hbt) & Hbk) & Hk).
  unfold fields, ls_line, timestamp, rjust.
  rewrite !str_app_assoc.
  repeat match goal with
         | |- context [" " ++ ?x] => change (" " ++ x) with (String " " x)
         end.
  rewrite fields_word by eauto using not_empty_of_length.
  rewrite fields_word by eauto using not_empty_of_length.
  rewrite fields_go_spaces.
  rewrite fields_word by auto using str_of_N_no_blank, str_of_N_not_empty.
  now rewrite fields_last.
Qed.

Lemma awk_key (o : s3_object) : wf_object o = true -> awk_field 4 (ls_line o) = key o.
Proof. intros H. unfold awk_field. now rewrite fields_ls_line. Qed.

Lemma wf_key_not_empty (o : s3_object) : wf_object o = true -> is_empty (key o) = false.
Proof.
  unfold wf_object. rewrite !andb_true_iff, negb_true_iff. tauto.
Qed.

Lemma wf_timestamp_length (o : s3_object) :
  wf_object o = true -> String.length (timestamp o) = 19%nat.
Proof.
  unfold wf_object. rewrite !andb_true_iff, !Nat.eqb_eq.
  intros (((((Hd & Ht) & _) & _) & _) & _).
  unfold timestamp. rewrite !str_length_app, Hd, Ht. reflexivity.
Qed.

(** The order of the lines of two listed objects is the order of their
    times of last modification. *)
Lemma desc_line_timestamp (a b : s3_object) :
  wf_object a = true -> wf_object b = true ->
  desc ls_line a b -> desc timestamp a b.
Proof.
  unfold desc, ls_line. intros Ha Hb H.
  eapply str_leb_prefix; [ | exact H].
  now rewrite !wf_timestamp_length.
Qed.

(** ** The cleanup of the upload command *)


(** The pipeline on any listing: the lines are sorted in descending
    order, the first [k - 1] are dropped, and [xargs] reads the fourth
    field of each of the others. *)
Lemma run_cleanup_pipeline_items (bucket : pyval) (ns name : string) (k : Z)
    (objects : list s3_object) :
  0 <= k ->
  run (map ls_line objects) (cleanup_pipeline bucket ns name k) =
    let fed := map (awk_field 4)
                 (skipn (Z.to_nat (k - 1)) (sort_desc id (map ls_line objects))) in
    Some (map (fun it => s3_prefix bucket ns name ++ it) (fst (xargs_items fed)),
          snd (xargs_items fed)).
Proof.
  intros Hk. unfold run, cleanup_pipeline. cbn [run_from run_stage fst].
  destruct (k <? 0) eqn:Hneg; [lia | ]. cbn [fst].
  now destruct (xargs_items _).
Qed.

Lemma is_newline_isspace (c : ascii) : is_newline c = true -> isspace c = true.
Proof.
  unfold is_newline, isspace. intros H. apply Nat.eqb_eq in H. now rewrite H.
Qed.

Lemma plain_char_cases (c : ascii) :
  plain_char c = true ->
  isspace c = false /\ is_newline c = false /\ is_backslash c = false /\ is_quote c = false.
Proof.
  unfold plain_char. rewrite !andb_true_iff, !negb_true_iff. intros [[Hs Hb] Hq].
  repeat split; try assumption.
  destruct (is_newline c) eqn:E; [ | reflexivity].
  apply is_newline_isspace in E. congruence.
Qed.

(** Inside an item, [xargs] takes a plain word as it is, up to the end of
    the line. *)
Lemma xargs_read_word (w rest cur : string) :
  plain w = true ->
  xargs_read (w ++ newline ++ rest) XNorm true cur =
    ((cur ++ w) :: fst (xargs_read rest XSpace false ""), snd (xargs_read rest XSpace false "")).
Proof.
  revert cur. induction w as [ | c w IH]; intros cur Hw.
  - rewrite str_app_nil_r. change ("" ++ newline ++ rest) with (String (ascii_of_nat 10) rest).
    cbn [xargs_read]. change (is_newline (ascii_of_nat 10)) with true. cbv iota.
    rewrite andb_false_r. now destruct (xargs_read rest XSpace false "").
  - cbn [plain] in Hw. apply andb_true_iff in Hw as [Hc Hw].
    apply plain_char_cases in Hc as (_ & Hn & Hb & Hq).
    rewrite str_app_cons. cbn [xargs_read]. rewrite Hn, Hb, Hq.
    rewrite IH by assumption. now rewrite str_app_assoc.
Qed.

Lemma xargs_read_line (w rest : string) :
  plain w = true -> is_empty w = false ->
  xargs_read (w ++ newline ++ rest) XSpace false "" =
    (w :: fst (xargs_read rest XSpace false ""), snd (xargs_read rest XSpace false "")).
Proof.
  destruct w as [ | c w]; [discriminate | ]. intros Hw _.
  cbn [plain] in Hw. apply andb_true_iff in Hw as [Hc Hw].
  apply plain_char_cases in Hc as (Hs & Hn & Hb & Hq).
  rewrite str_app_cons. cbn [xargs_read]. rewrite Hs, Hn, Hb, Hq.
  now rewrite xargs_read_word.
Qed.

(** Plain words that are not empty are the items [xargs] reads. *)
Lemma xargs_items_plain (ws : list string) :
  Forall (fun w => plain w = true /\ is_empty w = false) ws ->
  xargs_items ws = (ws, true).
Proof.
  unfold xargs_items. induction 1 as [ | w ws [Hw He] _ IH]; [reflexivity | ].
  cbn [unlines]. rewrite xargs_read_line by assumption. now rewrite IH.
Qed.

Lemma plain_object_wf (o : s3_object) : plain_object o = true -> wf_object o = true.
Proof. unfold plain_object. rewrite andb_true_iff. tauto. Qed.

Lemma plain_object_key (o : s3_object) :
  plain_object o = true -> plain (key o) = true /\ is_empty (key o) = false.
Proof.
  unfold plain_object. rewrite andb_true_iff. intros [Hwf Hp].
  split; [exact Hp | now apply wf_key_not_empty].
Qed.

(** What the pipeline does to the listing of objects with plain keys: the
    lines are sorted in descending order, the first [k - 1] are dropped,
    and the keys of the others are handed to [aws s3 rm]; [xargs] ends
    without an error. *)
Lemma run_cleanup_pipeline (bucket : pyval) (ns name : string) (k : Z) (objects : list s3_object) :
  0 <= k ->
  Forall (fun o => plain_object o = true) objects ->
  run (map ls_line objects) (cleanup_pipeline bucket ns name k) =
    Some (map (fun o => s3_prefix bucket ns name ++ key o)
              (skipn (Z.to_nat (k - 1)) (sort_desc ls_line objects)), true).
Proof.
  intros Hk Hplain. rewrite run_cleanup_pipeline_items by assumption. cbv zeta.
  rewrite sort_desc_map, List.skipn_map.
  set (rest := skipn _ _).
  assert (Hrest : Forall (fun o => plain_object o = true) rest).
  { subst rest. apply Forall_drop.
    eapply Permutation_Forall; [apply sort_desc_perm | exact Hplain]. }
  clearbody rest.
  assert (Hfed : map (awk_field 4) (map ls_line rest) = map key rest).
  { induction Hrest as [ | o rest Ho _ IH]; [reflexivity | ].
    cbn [map]. rewrite awk_key by now apply plain_object_wf. now rewrite IH. }
  rewrite Hfed, xargs_items_plain.
  - cbn [fst snd]. now rewrite map_map.
  - clear Hfed. induction Hrest as [ | o rest Ho _ IH]; cbn [map]; constructor;
      [now apply plain_object_key | exact IH].
Qed.





Example cleanup_deletes_oldest :
  cleanup_deletes (PStr "backups") "prod" "orders-db" (PInt 2) example_objects =
    Some ["s3://backups/prod/orders-db/backup-20240101-030000.sql.gz"].
Proof. reflexivity. Qed.

Example cleanup_deletes_nothing :
  cleanup_deletes (PStr "backups") "prod" "orders-db" (PInt 7) example_objects = Some [].
Proof. reflexivity. Qed.

(** ** The handlers, step by step

    With the configuration set, each handler is a cascade of cases on the
    outcomes of its steps. *)

(** Validation and manifest building make no API call: what they raise is
    neither an API error nor a request to retry. *)
Lemma _validate_spec_with_local (c : OperatorConfig.t) (database storage : dict) :
  local_outcome (_validate_spec_with c database storage).
Proof.
  unfold _validate_spec_with, getitem.
  destruct (database !! "type") as [t | ]; cbn [mbind sum_bind]; [ | exact I].
  destruct (negb (OperatorConfig.is_database_supported c t)); [exact I | ].
  destruct (storage !! "type") as [u | ]; cbn [mbind sum_bind]; [ | exact I].
  destruct (negb (OperatorConfig.is_storage_supported c u)); [exact I | ].
  repeat match goal with |- context [if ?b then _ else _] => destruct b end; exact I.
Qed.

Lemma cronjob_manifest_with_local (c : OperatorConfig.t) (name ns : string)
    (schedule : pyval) (database storage : dict) (retention : pyval) :
  local_outcome (cronjob_manifest_with c name ns schedule database storage retention).
Proof.
  unfold cronjob_manifest_with, getitem.
  destruct (database !! "type") as [t | ]; cbn [mbind sum_bind]; [ | exact I].
  destruct (database !! "host") as [h | ]; cbn [mbind sum_bind]; [ | exact I].
  destruct (database !! "name") as [d | ]; cbn [mbind sum_bind]; [ | exact I].
  destruct (storage !! "bucket") as [b | ]; cbn [mbind sum_bind]; [ | exact I].
  destruct (storage !! "type") as [u | ]; cbn [mbind sum_bind]; [ | exact I].
  destruct (backup_command_total t h d) as [cmd ->]. cbn [mbind sum_bind].
  unfold get_upload_command, succ_val, OperatorConfig.get_database_image.
  destruct retention; cbn [mbind sum_bind mret sum_ret]; try exact I;
    (destruct (_ !! "postgres"); [ | exact I]);
    destruct (lookup_val _ t); exact I.
Qed.

Lemma local_outcome_not_api {A : Type} (r : exn + A) (e : ApiException) :
  local_outcome r -> r <> inl (ApiError e).
Proof. intros H ->. exact H. Qed.

Lemma local_outcome_not_temporary {A : Type} (r : exn + A) (msg : string) (d : Z) :
  local_outcome r -> r <> inl (TemporaryError msg d).
Proof. intros H ->. exact H. Qed.

(** Unfold the monadic plumbing of a handler run on an explicit world. *)
Ltac run_handler :=
  repeat (unfold mbind, M_bind, mret, M_ret, in_process, zoom, lift, raise, modify,
            try_except_ApiException, api_call_on, patch_status_set,
            _validate_spec, cronjob_manifest, get_config;
          cbn [proc kube calls patch_status _config environ];
          cbv beta iota zeta).

Section HandlerRuns.
Context {C : Type} (api : BatchV1Api C) (adopt : manifest -> manifest).
Variables (c : OperatorConfig.t) (env : environment).
Variables (cl : C) (cs : list api_call) (patch : dict).

Let p := mkProcess (Some c) env.
Let w := mkWorld p cl cs patch.

Lemma _validate_spec_set (database storage : dict) :
  _validate_spec database storage p = (_validate_spec_with c database storage, p).
Proof. reflexivity. Qed.

Lemma create_backup_job_run (spec : backup_spec) (name ns : string) :
  create_backup_job api adopt spec name ns w =
  let backup := OperatorConfig.backup c in
  let sched := default (PStr (BackupConfig.default_schedule backup)) (schedule spec) in
  let keep := spec_keep_last spec (PInt (BackupConfig.default_retention_days backup)) in
  match spec_item "database" (database spec) with
  | inl e => (inl e, w)
  | inr db =>
    match spec_item "storage" (storage spec) with
    | inl e => (inl e, w)
    | inr st =>
      match _validate_spec_with c db st with
      | inl e => (inl e, w)
      | inr _ =>
        match cronjob_manifest_with c name ns sched db st keep with
        | inl e => (inl e, w)
        | inr m =>
          let '(r, cl') := create_namespaced_cron_job api ns (adopt m) cl in
          (match r with
           | inr _ =>
               inr (MDict [
                 ("message", MStr ("Backup CronJob created with schedule: " ++ str sched));
                 ("cronjob", MStr (name ++ "-backup"));
                 ("retention", MVal keep)])
           | inl e => inl (PermanentError ("Cannot create CronJob: " ++ str_ApiException e))
           end,
           mkWorld p cl' (cs ++ [CreateCronJob ns (adopt m)]) patch)
        end
      end
    end
  end.
Proof.
  unfold create_backup_job, w, p.
  run_handler.
  destruct (spec_item "database" (database spec)) as [e | db]; [reflexivity | ].
  destruct (spec_item "storage" (storage spec)) as [e | st]; [reflexivity | ].
  destruct (_validate_spec_with c db st) as [e | []]; [reflexivity | ].
  destruct (cronjob_manifest_with c name ns _ db st _) as [e | m]; [reflexivity | ].
  destruct (create_namespaced_cron_job api ns (adopt m) cl) as [[e | []] cl']; reflexivity.
Qed.

Lemma update_backup_job_run (spec : backup_spec) (name ns : string) :
  update_backup_job api adopt spec name ns w =
  let backup := OperatorConfig.backup c in
  let sched := default (PStr (BackupConfig.default_schedule backup)) (schedule spec) in
  let keep := spec_keep_last spec (PInt (BackupConfig.default_retention_days backup)) in
  let deletion := DeleteCronJob (name ++ "-backup") ns "Foreground" in
  let '(d, cl1) := delete_namespaced_cron_job api (name ++ "-backup") ns "Foreground" cl in
  let w1 := mkWorld p cl1 (cs ++ [deletion]) patch in
  match d with
  | inl e => (inl (TemporaryError ("Cannot update CronJob: " ++ str_ApiException e) 30), w1)
  | inr _ =>
    match spec_item "database" (database spec) with
    | inl e => (inl e, w1)
    | inr db =>
      match spec_item "storage" (storage spec) with
      | inl e => (inl e, w1)
      | inr st =>
        match _validate_spec_with c db st with
        | inl e => (inl e, w1)
        | inr _ =>
          match cronjob_manifest_with c name ns sched db st keep with
          | inl e => (inl e, w1)
          | inr m =>
            let '(r, cl2) := create_namespaced_cron_job api ns (adopt m) cl1 in
            (match r with
             | inr _ => inr (MDict [("message", MStr "Backup job updated successfully")])
             | inl e =>
                 inl (TemporaryError ("Cannot update CronJob: " ++ str_ApiException e) 30)
             end,
             mkWorld p cl2 ((cs ++ [deletion]) ++ [CreateCronJob ns (adopt m)]) patch)
          end
        end
      end
    end
  end.
Proof.
  unfold update_backup_job, w, p. run_handler.
  destruct (delete_namespaced_cron_job api (name ++ "-backup") ns "Foreground" cl)
    as [[e | []] cl1]; run_handler; [reflexivity | ].
  destruct (database spec) as [db | ]; run_handler; [ | reflexivity].
  destruct (storage spec) as [st | ]; run_handler; [ | reflexivity].
  cbn [spec_item].
  destruct (_validate_spec_with c db st) as [e | []] eqn:Hv; run_handler.
  { destruct e; try reflexivity.
    now apply (local_outcome_not_api _ _ (_validate_spec_with_local c db st)) in Hv. }
  destruct (cronjob_manifest_with c name ns _ db st _) as [e | m] eqn:Hm; run_handler.
  { destruct e; try reflexivity.
    now apply (local_outcome_not_api _ _ (cronjob_manifest_with_local c name ns _ db st _)) in Hm. }
  destruct (create_namespaced_cron_job api ns (adopt m) cl1) as [[e | []] cl2]; reflexivity.
Qed.

Lemma check_backup_status_run (name ns : string) :
  check_backup_status api name ns w =
  let '(r, cl') := read_namespaced_cron_job api (name ++ "-backup") ns cl in
  (inr tt,
   mkWorld p cl' (cs ++ [ReadCronJob (name ++ "-backup") ns])
     match r with
     | inr cronjob =>
         let jobs := default [] (active (status cronjob)) in
         <["activeJobs" := PInt (Z.of_nat (length jobs))]>
           match last_schedule_time (status cronjob) with
           | Some t => <["phase" := PStr "Active"]> (<["lastBackup" := PStr (isoformat t)]> patch)
           | None => <["phase" := PStr "Pending"]> patch
           end
     | inl e => <["error" := PStr (str_ApiException e)]> (<["phase" := PStr "Error"]> patch)
     end).
Proof.
  unfold check_backup_status, w, p. run_handler.
  destruct (read_namespaced_cron_job api (name ++ "-backup") ns cl)
    as [[e | [[t jobs]]] cl']; run_handler; [reflexivity | ].
  cbn [status last_schedule_time active].
  destruct t as [t | ]; destruct jobs as [[ | j jobs] | ]; run_handler; reflexivity.
Qed.
End HandlerRuns.

(** ** Periodic status check *)

Lemma str_ApiException_not_empty (e : ApiException) : str_ApiException e <> "".
Proof. unfold str_ApiException. discriminate. Qed.

(** C2 (as amended).  The status check never raises.  When the read of the
    CronJob answers with a last-schedule time, the patched phase is Active
    and [lastBackup] is that time; when it answers without one, the
    patched phase is Pending and [lastBackup] is not written; in both
    cases [activeJobs] is the number of running jobs and [error] is not
    written.  When the read fails, the patched phase is Error and [error]
    is the message of the failure, which is not empty; [activeJobs] and
    [lastBackup] are not written, as no key other than [phase] and
    [error] is. *)
Theorem status_derivation {C : Type} (api : BatchV1Api C) (c : OperatorConfig.t)
    (env : environment) (cl : C) (cs : list api_call) (patch : dict) (name ns : string) :
  let w := mkWorld (mkProcess (Some c) env) cl cs patch in
  let result := check_backup_status api name ns w in
  let patched := patch_status (snd result) in
  fst result = inr tt /\
  match fst (read_namespaced_cron_job api (name ++ "-backup") ns cl) with
  | inr cronjob =>
      match last_schedule_time (status cronjob) with
      | Some t =>
          patched !! "phase" = Some (PStr "Active") /\
          patched !! "lastBackup" = Some (PStr (isoformat t))
      | None =>
          patched !! "phase" = Some (PStr "Pending") /\
          patched !! "lastBackup" = patch !! "lastBackup"
      end /\
      patched !! "activeJobs" =
        Some (PInt (Z.of_nat (length (default [] (active (status cronjob)))))) /\
      (forall k, k <> "phase" -> k <> "lastBackup" -> k <> "activeJobs" ->
                 patched !! k = patch !! k)
  | inl e =>
      patched !! "phase" = Some (PStr "Error") /\
      patched !! "error" = Some (PStr (str_ApiException e)) /\
      str_ApiException e <> "" /\
      patched !! "activeJobs" = patch !! "activeJobs" /\
      patched !! "lastBackup" = patch !! "lastBackup" /\
      (forall k, k <> "phase" -> k <> "error" -> patched !! k = patch !! k)
  end.
Proof.
  intros w result patched. subst w result patched.
  rewrite check_backup_status_run.
  destruct (read_namespaced_cron_job api (name ++ "-backup") ns cl) as [[e | cronjob] cl'].
  - cbn [fst snd patch_status]. split; [reflexivity | ].
    split; [now simplify_map_eq | ]. split; [now simplify_map_eq | ].
    split; [apply str_ApiException_not_empty | ].
    split; [now simplify_map_eq | ]. split; [now simplify_map_eq | ].
    intros k Hp He. now rewrite !lookup_insert_ne by congruence.
  - cbn [fst snd patch_status]. split; [reflexivity | ].
    destruct (last_schedule_time (status cronjob)) as [t | ].
    + split; [split; now simplify_map_eq | ]. split; [now simplify_map_eq | ].
      intros k Hp Hl Ha. now rewrite !lookup_insert_ne by congruence.
    + split; [split; now simplify_map_eq | ]. split; [now simplify_map_eq | ].
      intros k Hp Hl Ha. now rewrite !lookup_insert_ne by congruence.
Qed.

(** C2 as stated fails on a tick whose read fails: on the empty cluster
    the CronJob is not found, the phase is Error, and nothing is recorded
    in [activeJobs]. *)
Lemma status_check_failed_read_records_no_count :
  fst (read_namespaced_cron_job simulated "orders-db-backup" "prod" ∅) = inl not_found /\
  fst (check_backup_status simulated "orders-db" "prod" example_world) = inr tt /\
  patch_status (snd (check_backup_status simulated "orders-db" "prod" example_world))
    !! "phase" = Some (PStr "Error") /\
  patch_status (snd (check_backup_status simulated "orders-db" "prod" example_world))
    !! "activeJobs" = None.
Proof. repeat split; vm_compute; reflexivity. Qed.

(** C10.  The status check starts from an empty patch.  When the read
    fails the patch writes [phase] and [error] only, so the resource keeps
    the [lastBackup] and [activeJobs] it had, as it keeps every key other
    than those two.  When the read answers without a last-schedule time the
    patch writes [phase] and [activeJobs] only, so the resource keeps its
    [lastBackup]. *)
Theorem status_check_frame {C : Type} (api : BatchV1Api C) (c : OperatorConfig.t)
    (env : environment) (cl : C) (cs : list api_call) (name ns : string)
    (resource_status : dict) :
  let w := mkWorld (mkProcess (Some c) env) cl cs ∅ in
  let patch := patch_status (snd (check_backup_status api name ns w)) in
  let status' := apply_patch resource_status patch in
  match fst (read_namespaced_cron_job api (name ++ "-backup") ns cl) with
  | inl e =>
      dom patch = ({["phase"; "error"]} : gset string) /\
      status' !! "lastBackup" = resource_status !! "lastBackup" /\
      status' !! "activeJobs" = resource_status !! "activeJobs" /\
      (forall k, k <> "phase" -> k <> "error" -> status' !! k = resource_status !! k)
  | inr cronjob =>
      match last_schedule_time (status cronjob) with
      | None =>
          dom patch = ({["phase"; "activeJobs"]} : gset string) /\
          status' !! "lastBackup" = resource_status !! "lastBackup"
      | Some _ => dom patch = ({["lastBackup"; "phase"; "activeJobs"]} : gset string)
      end
  end.
Proof.
  intros w patch status'. subst w patch status'.
  rewrite check_backup_status_run. unfold apply_patch.
  destruct (read_namespaced_cron_job api (name ++ "-backup") ns cl) as [[e | cronjob] cl'];
    cbn [fst snd patch_status].
  - assert (Hframe : forall k, k <> "phase" -> k <> "error" ->
              (<["error" := PStr (str_ApiException e)]> (<["phase" := PStr "Error"]> ∅) ∪ resource_status)
                !! k = resource_status !! k).
    { intros k Hp He. apply lookup_union_r.
      rewrite !lookup_insert_ne by congruence. apply lookup_empty. }
    split; [ | split; [ | split]].
    + rewrite !dom_insert_L, dom_empty_L. set_solver.
    + apply Hframe; discriminate.
    + apply Hframe; discriminate.
    + exact Hframe.
  - destruct (last_schedule_time (status cronjob)) as [t | ].
    + rewrite !dom_insert_L, dom_empty_L. set_solver.
    + split.
      * rewrite !dom_insert_L, dom_empty_L. set_solver.
      * apply lookup_union_r. rewrite !lookup_insert_ne by discriminate. apply lookup_empty.
Qed.

(** ** Validation *)

(** Validation on a database that carries a type entry.  With the
    supported types of the configuration as shipped, and a storage that
    carries a type entry when the engine type is supported, validation
    fails with the message of the first check that does not hold, in the
    order: engine type supported, storage type supported, [database.host]
    present, [database.name] present, [storage.bucket] present.  Every such
    failure is a permanent error; the messages of the two type checks list
    all supported types.  When every check holds, validation returns.  In
    every case the process state is unchanged. *)
Lemma validation_first_failure (c : OperatorConfig.t) (env : environment)
    (database storage : dict) (t u : pyval) :
  DatabaseConfig.supported_types (OperatorConfig.database c) = ["postgres"; "mysql"; "mongodb"] ->
  StorageConfig.supported_types (OperatorConfig.storage c) = ["s3"; "gcs"; "azure"] ->
  database !! "type" = Some t ->
  (known_engine t = true -> storage !! "type" = Some u) ->
  _validate_spec database storage (mkProcess (Some c) env) =
    (match first_failure (validation_checks t u database storage) with
     | Some msg => inl (PermanentError msg)
     | None => inr tt
     end,
     mkProcess (Some c) env).
Proof.
  intros Hdb Hst Ht Hu. rewrite _validate_spec_set. f_equal.
  unfold _validate_spec_with, getitem, validation_checks, first_failure.
  unfold OperatorConfig.is_database_supported, OperatorConfig.is_storage_supported.
  rewrite Ht, Hdb, Hst. cbn [mbind sum_bind].
  fold (known_engine t). unfold join.
  destruct (known_engine t) eqn:Hk; cbn [negb]; [ | reflexivity].
  rewrite (Hu eq_refl). cbn [mbind sum_bind].
  fold (known_storage u). unfold present.
  destruct (known_storage u); cbn [negb]; [ | reflexivity].
  destruct (truthy_opt (database !! "host")); cbn [negb]; [ | reflexivity].
  destruct (truthy_opt (database !! "name")); cbn [negb]; [ | reflexivity].
  destruct (truthy_opt (storage !! "bucket")); reflexivity.
Qed.

(** On a complete specification, on one without a host, and on one with
    an engine that is not supported and a storage without a type. *)
Lemma validation_first_failure_witness :
  _validate_spec example_database example_storage example_process = (inr tt, example_process) /\
  _validate_spec (delete "host" example_database) example_storage example_process =
    (inl (PermanentError "Database host is required"), example_process) /\
  _validate_spec (<["type" := PStr "oracle"]> example_database) (delete "type" example_storage)
    example_process =
    (inl (PermanentError
            "Unsupported database type: oracle. Supported types: postgres, mysql, mongodb"),
     example_process).
Proof.
  split; [ | split].
  - apply (validation_first_failure (OperatorConfig.from_env ∅) ∅
             example_database example_storage (PStr "postgres") (PStr "s3"));
      reflexivity.
  - etransitivity.
    + apply (validation_first_failure (OperatorConfig.from_env ∅) ∅
               (delete "host" example_database) example_storage (PStr "postgres") (PStr "s3"));
        reflexivity.
    + vm_compute. reflexivity.
  - etransitivity.
    + apply (validation_first_failure (OperatorConfig.from_env ∅) ∅
               (<["type" := PStr "oracle"]> example_database) (delete "type" example_storage)
               (PStr "oracle") PNone); try reflexivity. discriminate.
    + vm_compute. reflexivity.
Defined.

(** C4.  The validator at the input on which it departs from the claim: a
    database (or a storage) without a type entry.  The type is read by
    subscript, so validation raises [KeyError] where the first check does
    not hold, not a permanent error that names the field; the checks of
    host, name and bucket read their key with [get], and a missing host
    is the permanent error of its check. *)
Theorem validation_missing_type_not_permanent :
  _validate_spec (delete "type" example_database) example_storage example_process =
    (inl (KeyError "type"), example_process) /\
  _validate_spec example_database (delete "type" example_storage) example_process =
    (inl (KeyError "type"), example_process) /\
  _validate_spec (delete "host" example_database) example_storage example_process =
    (inl (PermanentError "Database host is required"), example_process).
Proof. repeat split; vm_compute; reflexivity. Qed.

Example validation_unsupported_engine :
  fst (_validate_spec (<["type" := PStr "oracle"]> example_database) example_storage
         example_process) =
    inl (PermanentError
           "Unsupported database type: oracle. Supported types: postgres, mysql, mongodb").
Proof. vm_compute. reflexivity. Qed.

(** ** Failures of the cluster API in the create and update handlers *)

Lemma app_singleton_neq {A : Type} (l : list A) (x : A) : l <> (l ++ [x])%list.
Proof.
  intros H. apply (f_equal (@length A)) in H. rewrite List.length_app in H. cbn in H. lia.
Qed.

Lemma app_singleton_inj {A : Type} (l : list A) (x y : A) :
  (l ++ [x])%list = (l ++ [y])%list -> x = y.
Proof. intros H. apply List.app_inv_head in H. now injection H. Qed.

Section ApiFailures.
Context {C : Type} (api : BatchV1Api C) (adopt : manifest -> manifest).
Variables (c : OperatorConfig.t) (env : environment).
Variables (cl : C) (cs : list api_call) (patch : dict).
Variables (spec : backup_spec) (name ns : string).

Let w := mkWorld (mkProcess (Some c) env) cl cs patch.
Let created := create_backup_job api adopt spec name ns w.
Let updated := update_backup_job api adopt spec name ns w.
Let deletion := DeleteCronJob (name ++ "-backup") ns "Foreground".

Lemma create_failure_permanent (body : manifest) (e : ApiException) (cl' : C) :
  calls (snd created) = (cs ++ [CreateCronJob ns body])%list ->
  create_namespaced_cron_job api ns body cl = (inl e, cl') ->
  fst created = inl (PermanentError ("Cannot create CronJob: " ++ str_ApiException e)).
Proof.
  subst created w. rewrite create_backup_job_run. cbv zeta.
  destruct (spec_item "database" _) as [e1 | db];
    [intros H; now apply app_singleton_neq in H | ].
  destruct (spec_item "storage" _) as [e1 | st];
    [intros H; now apply app_singleton_neq in H | ].
  destruct (_validate_spec_with c db st) as [e1 | []];
    [intros H; now apply app_singleton_neq in H | ].
  destruct (cronjob_manifest_with c name ns _ db st _) as [e1 | m];
    [intros H; now apply app_singleton_neq in H | ].
  destruct (create_namespaced_cron_job api ns (adopt m) cl) as [r cl1] eqn:Hcall.
  cbn [fst snd calls]. intros Hbody Hfail.
  apply app_singleton_inj in Hbody. injection Hbody as <-.
  rewrite Hcall in Hfail. now injection Hfail as -> _.
Qed.

Lemma create_outcome_local : local_outcome (fst created).
Proof.
  subst created w. rewrite create_backup_job_run. cbv zeta.
  destruct (database spec) as [db | ]; [ | exact I].
  destruct (storage spec) as [st | ]; [ | exact I]. cbn [spec_item].
  pose proof (_validate_spec_with_local c db st) as Hv.
  destruct (_validate_spec_with c db st) as [e1 | []]; [exact Hv | ].
  match goal with
  | |- context [cronjob_manifest_with c name ns ?s db st ?k] =>
      pose proof (cronjob_manifest_with_local c name ns s db st k) as Hm;
      destruct (cronjob_manifest_with c name ns s db st k) as [e1 | m]; [exact Hm | ]
  end.
  destruct (create_namespaced_cron_job api ns (adopt m) cl) as [[e1 | []] cl1]; exact I.
Qed.

Lemma update_delete_failure_temporary (e : ApiException) (cl1 : C) :
  delete_namespaced_cron_job api (name ++ "-backup") ns "Foreground" cl = (inl e, cl1) ->
  fst updated = inl (TemporaryError ("Cannot update CronJob: " ++ str_ApiException e) 30).
Proof.
  intros Hdel. subst updated w. rewrite update_backup_job_run. cbv zeta.
  now rewrite Hdel.
Qed.

Lemma update_create_failure_temporary (body : manifest) (e : ApiException) (cl1 cl2 : C) :
  delete_namespaced_cron_job api (name ++ "-backup") ns "Foreground" cl = (inr tt, cl1) ->
  calls (snd updated) = ((cs ++ [deletion]) ++ [CreateCronJob ns body])%list ->
  create_namespaced_cron_job api ns body cl1 = (inl e, cl2) ->
  fst updated = inl (TemporaryError ("Cannot update CronJob: " ++ str_ApiException e) 30).
Proof.
  intros Hdel. subst updated w deletion. rewrite update_backup_job_run. cbv zeta.
  rewrite Hdel.
  destruct (spec_item "database" _) as [e1 | db];
    [intros H; now apply app_singleton_neq in H | ].
  destruct (spec_item "storage" _) as [e1 | st];
    [intros H; now apply app_singleton_neq in H | ].
  destruct (_validate_spec_with c db st) as [e1 | []];
    [intros H; now apply app_singleton_neq in H | ].
  destruct (cronjob_manifest_with c name ns _ db st _) as [e1 | m];
    [intros H; now apply app_singleton_neq in H | ].
  destruct (create_namespaced_cron_job api ns (adopt m) cl1) as [r cl3] eqn:Hcall.
  cbn [fst snd calls]. intros Hbody Hfail.
  apply app_singleton_inj in Hbody. injection Hbody as <-.
  rewrite Hcall in Hfail. now injection Hfail as -> _.
Qed.

(** Every outcome of the update handler is local, or the request to retry
    after thirty seconds. *)
Lemma update_outcome_cases :
  local_outcome (fst updated) \/
  exists msg, fst updated = inl (TemporaryError msg 30).
Proof.
  subst updated w. rewrite update_backup_job_run. cbv zeta.
  destruct (delete_namespaced_cron_job api _ ns "Foreground" cl) as [[e | []] cl1];
    [right; eexists; reflexivity | ].
  destruct (database spec) as [db | ]; [ | left; exact I].
  destruct (storage spec) as [st | ]; [ | left; exact I]. cbn [spec_item].
  pose proof (_validate_spec_with_local c db st) as Hv.
  destruct (_validate_spec_with c db st) as [e1 | []]; [left; exact Hv | ].
  match goal with
  | |- context [cronjob_manifest_with c name ns ?s db st ?k] =>
      pose proof (cronjob_manifest_with_local c name ns s db st k) as Hm;
      destruct (cronjob_manifest_with c name ns s db st k) as [e1 | m]; [left; exact Hm | ]
  end.
  destruct (create_namespaced_cron_job api ns (adopt m) cl1) as [[e1 | []] cl2];
    [right; eexists; reflexivity | left; exact I].
Qed.

(** C6 (as amended).  A failure of the create call in the create handler
    is raised as a permanent error; the create handler never raises a raw
    API error nor a request to retry.  A failure of the delete call or of
    the create call in the update handler is raised as a temporary error
    with a delay of thirty seconds, whatever the state of the world the
    handler runs in, on a first attempt as on a retry; the update handler
    never raises a raw API error, every temporary error it raises has that
    delay, and its decorator sets no limit on the number of retries. *)
Theorem api_failure_classification :
  (forall body e cl',
      calls (snd created) = (cs ++ [CreateCronJob ns body])%list ->
      create_namespaced_cron_job api ns body cl = (inl e, cl') ->
      fst created = inl (PermanentError ("Cannot create CronJob: " ++ str_ApiException e))) /\
  (forall e, fst created <> inl (ApiError e)) /\
  (forall msg d, fst created <> inl (TemporaryError msg d)) /\
  (forall e cl1,
      delete_namespaced_cron_job api (name ++ "-backup") ns "Foreground" cl = (inl e, cl1) ->
      fst updated = inl (TemporaryError ("Cannot update CronJob: " ++ str_ApiException e) 30)) /\
  (forall body e cl1 cl2,
      delete_namespaced_cron_job api (name ++ "-backup") ns "Foreground" cl = (inr tt, cl1) ->
      calls (snd updated) = ((cs ++ [deletion]) ++ [CreateCronJob ns body])%list ->
      create_namespaced_cron_job api ns body cl1 = (inl e, cl2) ->
      fst updated = inl (TemporaryError ("Cannot update CronJob: " ++ str_ApiException e) 30)) /\
  (forall e, fst updated <> inl (ApiError e)) /\
  (forall msg d, fst updated = inl (TemporaryError msg d) -> d = 30) /\
  retries update_backup_job_registration = None.
Proof.
  split; [exact create_failure_permanent | ].
  split; [intros e; apply local_outcome_not_api, create_outcome_local | ].
  split; [intros msg d; apply local_outcome_not_temporary, create_outcome_local | ].
  split; [exact update_delete_failure_temporary | ].
  split; [exact update_create_failure_temporary | ].
  split.
  - intros e H. destruct update_outcome_cases as [Hl | [msg Hm]].
    + now apply (local_outcome_not_api _ e) in Hl.
    + rewrite Hm in H. discriminate H.
  - split; [ | reflexivity].
    intros msg d H. destruct update_outcome_cases as [Hl | [msg' Hm]].
    + now apply (local_outcome_not_temporary _ msg d) in Hl.
    + rewrite Hm in H. now injection H as _ <-.
Qed.
End ApiFailures.

(** C6, on the simulated cluster: creating a CronJob that exists is a
    conflict, and the create handler raises a permanent error; updating a
    backup whose CronJob is missing fails in the delete call, and the
    update handler asks for a retry after thirty seconds. *)
Lemma api_failure_classification_witness :
  fst (create_backup_job simulated (adopt_by "orders-db") example_spec "orders-db" "prod"
         (mkWorld example_process example_cluster [] ∅)) =
    inl (PermanentError ("Cannot create CronJob: " ++ str_ApiException conflict)) /\
  fst (update_backup_job simulated (adopt_by "orders-db") example_spec "orders-db" "prod"
         (mkWorld example_process ∅ [] ∅)) =
    inl (TemporaryError ("Cannot update CronJob: " ++ str_ApiException not_found) 30).
Proof.
  split.
  - destruct (api_failure_classification simulated (adopt_by "orders-db")
                (OperatorConfig.from_env ∅) ∅ example_cluster [] ∅
                example_spec "orders-db" "prod") as (Hcreate & _).
    apply (Hcreate example_manifest conflict example_cluster); vm_compute; reflexivity.
  - destruct (api_failure_classification simulated (adopt_by "orders-db")
                (OperatorConfig.from_env ∅) ∅ ∅ [] ∅
                example_spec "orders-db" "prod") as (_ & _ & _ & Hdelete & _).
    apply (Hdelete not_found ∅); vm_compute; reflexivity.
Defined.

(** C6 as stated fails on the number of retries.  The update handler is
    registered without a limit on retries, and on a cluster where the
    CronJob of the resource is missing the attempt, its retry and the retry
    of that retry all fail in the delete call and ask for another retry
    thirty seconds later: the retry is not the last. *)
Lemma update_retry_asks_for_retry :
  let update := update_backup_job simulated (adopt_by "orders-db") example_spec
                  "orders-db" "prod" in
  let again := inl (TemporaryError ("Cannot update CronJob: " ++ str_ApiException not_found) 30) in
  retries update_backup_job_registration = None /\
  fst (update example_world) = again /\
  fst (update (snd (update example_world))) = again /\
  fst (update (snd (update (snd (update example_world))))) = again.
Proof. cbv zeta. repeat split; vm_compute; reflexivity. Qed.

(** ** Update with an invalid specification *)

(** C9 (as amended).  In the update handler the deletion comes first.
    When it succeeds and the validation of the new specification then
    fails with a permanent error, the handler raises that permanent error,
    not the temporary error of an API failure; the deletion is the only
    API call it has made, and the cluster is left as the deletion left it:
    no CronJob is created in place of the deleted one. *)
Theorem update_invalid_spec_after_delete {C : Type} (api : BatchV1Api C)
    (adopt : manifest -> manifest) (c : OperatorConfig.t) (env : environment)
    (cl cl1 : C) (cs : list api_call) (patch : dict)
    (spec : backup_spec) (name ns : string) (db st : dict) (msg : string) :
  database spec = Some db ->
  storage spec = Some st ->
  _validate_spec_with c db st = inl (PermanentError msg) ->
  delete_namespaced_cron_job api (name ++ "-backup") ns "Foreground" cl = (inr tt, cl1) ->
  update_backup_job api adopt spec name ns (mkWorld (mkProcess (Some c) env) cl cs patch) =
    (inl (PermanentError msg),
     mkWorld (mkProcess (Some c) env) cl1
       (cs ++ [DeleteCronJob (name ++ "-backup") ns "Foreground"]) patch).
Proof.
  intros Hdb Hst Hv Hdel. rewrite update_backup_job_run. cbv zeta.
  now rewrite Hdel, Hdb, Hst; cbn [spec_item]; rewrite Hv.
Qed.

(** C9, on the simulated cluster: the CronJob of the example exists, the
    update removes the database host; afterwards the handler has raised
    the permanent error of the validation and the cluster is empty. *)
Lemma update_invalid_spec_after_delete_witness :
  update_backup_job simulated (adopt_by "orders-db") example_spec_no_host "orders-db" "prod"
    (mkWorld example_process example_cluster [] ∅) =
    (inl (PermanentError "Database host is required"),
     mkWorld example_process ∅ [DeleteCronJob "orders-db-backup" "prod" "Foreground"] ∅).
Proof.
  etransitivity.
  - apply (update_invalid_spec_after_delete simulated (adopt_by "orders-db")
             (OperatorConfig.from_env ∅) ∅ example_cluster ∅ [] ∅
             example_spec_no_host "orders-db" "prod"
             (delete "host" example_database) example_storage "Database host is required");
      vm_compute; reflexivity.
  - reflexivity.
Defined.

(** C9 as stated fails for two kinds of update with an invalid
    specification.  When the CronJob is missing, the deletion fails and
    the handler raises the temporary error of the API failure: the
    specification without a host is not validated.  When the database has
    no type entry, the deletion succeeds and validation raises [KeyError],
    which is not a permanent error. *)
Lemma update_invalid_spec_not_permanent :
  update_backup_job simulated (adopt_by "orders-db") example_spec_no_host "orders-db" "prod"
    (mkWorld example_process ∅ [] ∅) =
    (inl (TemporaryError ("Cannot update CronJob: " ++ str_ApiException not_found) 30),
     mkWorld example_process ∅ [DeleteCronJob "orders-db-backup" "prod" "Foreground"] ∅) /\
  update_backup_job simulated (adopt_by "orders-db") example_spec_no_type "orders-db" "prod"
    (mkWorld example_process example_cluster [] ∅) =
    (inl (KeyError "type"),
     mkWorld example_process ∅ [DeleteCronJob "orders-db-backup" "prod" "Foreground"] ∅).
Proof. split; vm_compute; reflexivity. Qed.

(** ** The example of the design document *)



(** The end-to-end scenario of the design document. *)
Example orders_db_scenario :
  exists m,
    fst (cronjob_manifest "orders-db" "prod" (PStr "0 3 * * *") example_database
           example_storage (PInt 5) example_process) = inr m /\
    path ["metadata"; "name"] m = Some (MStr "orders-db-backup") /\
    path ["spec"; "schedule"] m = Some (MStr "0 3 * * *") /\
    container_image m = Some (MStr "postgres:15-alpine") /\
    option_map (fun env => length (items env)) (container_env m) = Some 5%nat.
Proof. eexists. split; [vm_compute; reflexivity | ]. repeat split. Qed.

(** The create handler calls the API at most once, in the namespace of the
    backup resource and with the manifest built from its specification. *)
Lemma create_backup_job_call {C : Type} (api : BatchV1Api C) (adopt : manifest -> manifest)
    (c : OperatorConfig.t) (env : environment) (cl : C) (cs : list api_call) (patch : dict)
    (spec : backup_spec) (name ns : string) :
  let w := mkWorld (mkProcess (Some c) env) cl cs patch in
  let w' := snd (create_backup_job api adopt spec name ns w) in
  calls w' = cs \/
  exists db st m,
    database spec = Some db /\ storage spec = Some st /\
    cronjob_manifest_with c name ns
      (default (PStr (BackupConfig.default_schedule (OperatorConfig.backup c))) (schedule spec))
      db st
      (spec_keep_last spec
         (PInt (BackupConfig.default_retention_days (OperatorConfig.backup c)))) = inr m /\
    calls w' = (cs ++ [CreateCronJob ns (adopt m)])%list.
Proof.
  intros w w'. subst w w'. rewrite create_backup_job_run. cbv zeta.
  destruct (database spec) as [db | ]; [ | now left].
  destruct (storage spec) as [st | ]; [ | now left]. cbn [spec_item].
  destruct (_validate_spec_with c db st) as [e | []]; [now left | ].
  match goal with
  | |- context [cronjob_manifest_with c name ns ?s db st ?k] =>
      destruct (cronjob_manifest_with c name ns s db st k) as [e | m] eqn:Hm; [now left | ]
  end.
  destruct (create_namespaced_cron_job api ns (adopt m) cl) as [r cl1].
  right. exists db, st, m. auto.
Qed.

(** * Further properties of the code *)

(** ** Configuration *)

(** X1.  Whatever the environment holds, the configuration read from it
    has the shipped tables of databases and storages, and its validation
    can fail on the retention only. *)
Theorem from_env_validation (env : environment) :
  let c := OperatorConfig.from_env env in
  OperatorConfig.database c = DatabaseConfig.default /\
  OperatorConfig.storage c = StorageConfig.default /\
  OperatorConfig.validate c =
    if BackupConfig.default_retention_days (OperatorConfig.backup c) <? 1
    then inl (ValueError "Retention days must be at least 1")
    else inr tt.
Proof.
  unfold OperatorConfig.from_env, getenv.
  destruct (env !! "OPERATOR_NAMESPACE") as [ns | ]; [destruct (String.eqb ns "") | ];
    (destruct (env !! "DEFAULT_BACKUP_SCHEDULE") as [s | ]; [destruct (String.eqb s "") | ]);
    (destruct (env !! "DEFAULT_RETENTION_DAYS") as [r | ];
       [destruct (String.eqb r ""); [ | destruct (int_of_str r)] | ]);
    cbv zeta; repeat split; reflexivity.
Qed.

(** X2.  On first use with an environment whose configuration is invalid,
    [get_config] raises, but the singleton is set all the same: the next
    call returns that configuration without validating it. *)
Theorem get_config_failed_first_use (env : environment) (e : exn) :
  OperatorConfig.validate (OperatorConfig.from_env env) = inl e ->
  get_config (mkProcess None env) =
    (inl e, mkProcess (Some (OperatorConfig.from_env env)) env) /\
  get_config (snd (get_config (mkProcess None env))) =
    (inr (OperatorConfig.from_env env), mkProcess (Some (OperatorConfig.from_env env)) env).
Proof.
  intros H. unfold get_config at 1 3. cbn [_config environ]. rewrite H.
  split; reflexivity.
Qed.

Lemma get_config_failed_first_use_witness :
  get_config (mkProcess None {[ "DEFAULT_RETENTION_DAYS" := "0" ]}) =
    (inl (ValueError "Retention days must be at least 1"),
     mkProcess (Some (OperatorConfig.from_env {[ "DEFAULT_RETENTION_DAYS" := "0" ]}))
       {[ "DEFAULT_RETENTION_DAYS" := "0" ]}) /\
  get_config (snd (get_config (mkProcess None {[ "DEFAULT_RETENTION_DAYS" := "0" ]}))) =
    (inr (OperatorConfig.from_env {[ "DEFAULT_RETENTION_DAYS" := "0" ]}),
     mkProcess (Some (OperatorConfig.from_env {[ "DEFAULT_RETENTION_DAYS" := "0" ]}))
       {[ "DEFAULT_RETENTION_DAYS" := "0" ]}).
Proof.
  apply (get_config_failed_first_use {[ "DEFAULT_RETENTION_DAYS" := "0" ]}).
  vm_compute. reflexivity.
Defined.

(** X3.  After any call of [get_config] the singleton is set, and from then
    on [get_config] returns it and changes nothing, whatever the
    environment has become: the environment is read on first use only. *)
Theorem get_config_reads_environment_once (p : process) (env' : environment) :
  exists c,
    _config (snd (get_config p)) = Some c /\
    environ (snd (get_config p)) = environ p /\
    get_config (mkProcess (Some c) env') = (inr c, mkProcess (Some c) env') /\
    (forall c', fst (get_config p) = inr c' -> c' = c).
Proof.
  unfold get_config at 1 2 4. destruct p as [[c | ] env]; cbn [_config environ].
  - exists c. repeat split. intros c' H. now injection H.
  - exists (OperatorConfig.from_env env).
    destruct (OperatorConfig.validate (OperatorConfig.from_env env));
      repeat split; cbn [fst]; try discriminate. intros c' H. now injection H.
Qed.

(** X4.  [set_config] either installs the configuration, which [get_config]
    then returns whatever was set before, or it raises the error of the
    validation and leaves the process as it was. *)
Theorem set_config_installs_or_rejects (config : OperatorConfig.t) (p : process) :
  (OperatorConfig.validate config = inr tt /\
   fst (set_config config p) = inr tt /\
   get_config (snd (set_config config p)) = (inr config, snd (set_config config p))) \/
  (exists e, OperatorConfig.validate config = inl e /\ set_config config p = (inl e, p)).
Proof.
  unfold set_config. destruct (OperatorConfig.validate config) as [e | []].
  - right. exists e. auto.
  - left. repeat split.
Qed.

(** ** The retention read from the environment *)





















(** ** The manifest builder *)

(** X6.  Whatever the engine type, the variables of the environment list
    are, in this order, [DB_USER], [DB_PASSWORD] (for postgres and mysql
    only), [AWS_ACCESS_KEY_ID], [AWS_SECRET_ACCESS_KEY] and
    [AWS_DEFAULT_REGION]: no two entries define the same variable, the
    database user comes first and the storage region last. *)
Theorem container_env_names_distinct (db_type db_creds storage_creds region : pyval) :
  let env := _get_container_env db_type db_creds storage_creds region in
  (db_type = PStr "postgres" \/ db_type = PStr "mysql" ->
   map env_name env =
     [Some (MStr "DB_USER"); Some (MStr "DB_PASSWORD"); Some (MStr "AWS_ACCESS_KEY_ID");
      Some (MStr "AWS_SECRET_ACCESS_KEY"); Some (MStr "AWS_DEFAULT_REGION")]) /\
  (~ (db_type = PStr "postgres" \/ db_type = PStr "mysql") ->
   map env_name env =
     [Some (MStr "DB_USER"); Some (MStr "AWS_ACCESS_KEY_ID");
      Some (MStr "AWS_SECRET_ACCESS_KEY"); Some (MStr "AWS_DEFAULT_REGION")]) /\
  NoDup (map env_name env) /\
  head env =
    Some (MDict [("name", MStr "DB_USER");
                 ("valueFrom", MDict [("secretKeyRef",
                    MDict [("name", MVal db_creds); ("key", MStr "username")])])]) /\
  last env = Some (MDict [("name", MStr "AWS_DEFAULT_REGION"); ("value", MVal region)]).
Proof.
  intros env. subst env. unfold _get_container_env.
  pose proof (in_strs_postgres_mysql db_type) as Hiff.
  destruct (in_strs db_type ["postgres"; "mysql"]); cbn;
    (split; [intros H; try reflexivity; apply Hiff in H; discriminate H | ]);
    (split; [intros H; try reflexivity; exfalso; apply H, Hiff; reflexivity | ]);
    (split; [ | split; reflexivity]);
    repeat (constructor;
            [let H := fresh in
             intros H;
             repeat (apply elem_of_cons in H as [H | H]; [discriminate H | ]);
             now apply elem_of_nil in H | ]);
    constructor.
Qed.

(** What the builder needs of its inputs. *)
Lemma cronjob_manifest_with_returns (c : OperatorConfig.t) (name ns : string)
    (schedule : pyval) (database storage : dict) (retention : pyval) (m : manifest) :
  cronjob_manifest_with c name ns schedule database storage retention = inr m ->
  exists t h d b u k fallback,
    database !! "type" = Some t /\ database !! "host" = Some h /\
    database !! "name" = Some d /\ storage !! "bucket" = Some b /\
    storage !! "type" = Some u /\ succ_val retention = inr k /\
    DatabaseConfig.images (OperatorConfig.database c) !! "postgres" = Some fallback.
Proof.
  unfold cronjob_manifest_with, getitem.
  destruct (database !! "type") as [t | ]; cbn [mbind sum_bind]; [ | discriminate].
  destruct (database !! "host") as [h | ]; cbn [mbind sum_bind]; [ | discriminate].
  destruct (database !! "name") as [d | ]; cbn [mbind sum_bind]; [ | discriminate].
  destruct (storage !! "bucket") as [b | ]; cbn [mbind sum_bind]; [ | discriminate].
  destruct (storage !! "type") as [u | ]; cbn [mbind sum_bind]; [ | discriminate].
  destruct (backup_command t h d) as [e | cmd]; cbn [mbind sum_bind]; [discriminate | ].
  unfold get_upload_command.
  destruct (succ_val retention) as [e | k]; cbn [mbind sum_bind mret sum_ret]; [discriminate | ].
  unfold OperatorConfig.get_database_image.
  destruct (_ !! "postgres") as [fallback | ]; [ | discriminate].
  intros _. exists t, h, d, b, u, k, fallback. repeat split.
Qed.

(** What the builder raises. *)
Lemma cronjob_manifest_with_raises (c : OperatorConfig.t) (name ns : string)
    (schedule : pyval) (database storage : dict) (retention : pyval) (e : exn) :
  cronjob_manifest_with c name ns schedule database storage retention = inl e ->
  (exists k, e = KeyError k) \/ (exists msg, e = TypeError msg).
Proof.
  unfold cronjob_manifest_with, getitem.
  destruct (database !! "type") as [t | ]; cbn [mbind sum_bind];
    [ | intros H; injection H as <-; eauto].
  destruct (database !! "host") as [h | ]; cbn [mbind sum_bind];
    [ | intros H; injection H as <-; eauto].
  destruct (database !! "name") as [d | ]; cbn [mbind sum_bind];
    [ | intros H; injection H as <-; eauto].
  destruct (storage !! "bucket") as [b | ]; cbn [mbind sum_bind];
    [ | intros H; injection H as <-; eauto].
  destruct (storage !! "type") as [u | ]; cbn [mbind sum_bind];
    [ | intros H; injection H as <-; eauto].
  destruct (backup_command_total t h d) as [cmd ->]. cbn [mbind sum_bind].
  unfold get_upload_command, succ_val, OperatorConfig.get_database_image.
  destruct retention; cbn [mbind sum_bind mret sum_ret];
    try (intros H; injection H as <-; eauto);
    (destruct (_ !! "postgres"); [ | intros H; injection H as <-; eauto]);
    destruct (lookup_val _ t); discriminate.
Qed.

(** X7.  The builder reads five keys by subscript, in the order database
    [type], [host], [name], storage [bucket], [type]: the first of them
    that is missing raises [KeyError] with its name, whatever else the
    inputs hold.  The builder validates nothing: whatever it raises is
    never a permanent error, and the example with an empty database host,
    which validation rejects, is built into a manifest. *)
Theorem cronjob_manifest_missing_key (c : OperatorConfig.t) (name ns : string)
    (schedule : pyval) (database storage : dict) (retention : pyval) :
  let built := cronjob_manifest_with c name ns schedule database storage retention in
  match database !! "type", database !! "host", database !! "name",
        storage !! "bucket", storage !! "type" with
  | None, _, _, _, _ => built = inl (KeyError "type")
  | Some _, None, _, _, _ => built = inl (KeyError "host")
  | Some _, Some _, None, _, _ => built = inl (KeyError "name")
  | Some _, Some _, Some _, None, _ => built = inl (KeyError "bucket")
  | Some _, Some _, Some _, Some _, None => built = inl (KeyError "type")
  | Some _, Some _, Some _, Some _, Some _ => True
  end /\
  (forall msg, built <> inl (PermanentError msg)) /\
  (exists m,
     cronjob_manifest_with (OperatorConfig.from_env ∅) "orders-db" "prod" (PStr "0 3 * * *")
       (<["host" := PStr ""]> example_database) example_storage (PInt 5) = inr m /\
     fst (_validate_spec (<["host" := PStr ""]> example_database) example_storage
            example_process) = inl (PermanentError "Database host is required")).
Proof.
  intros built. subst built. split; [ | split].
  - unfold cronjob_manifest_with, getitem.
    destruct (database !! "type"); [ | reflexivity].
    destruct (database !! "host"); [ | reflexivity].
    destruct (database !! "name"); [ | reflexivity].
    destruct (storage !! "bucket"); [ | reflexivity].
    destruct (storage !! "type"); [exact I | reflexivity].
  - intros msg H. apply cronjob_manifest_with_raises in H as [[k H] | [m H]]; discriminate H.
  - eexists. split; vm_compute; reflexivity.
Qed.

(** ** Validation, and validation followed by the builder *)

Lemma _validate_spec_with_accepts (c : OperatorConfig.t) (database storage : dict) :
  _validate_spec_with c database storage = inr tt ->
  exists t u,
    database !! "type" = Some t /\ OperatorConfig.is_database_supported c t = true /\
    storage !! "type" = Some u /\ OperatorConfig.is_storage_supported c u = true /\
    present database "host" = true /\ present database "name" = true /\
    present storage "bucket" = true.
Proof.
  unfold _validate_spec_with, getitem, present.
  destruct (database !! "type") as [t | ]; cbn [mbind sum_bind]; [ | discriminate].
  destruct (OperatorConfig.is_database_supported c t) eqn:Ht; cbn [negb]; [ | discriminate].
  destruct (storage !! "type") as [u | ]; cbn [mbind sum_bind]; [ | discriminate].
  destruct (OperatorConfig.is_storage_supported c u) eqn:Hu; cbn [negb]; [ | discriminate].
  destruct (truthy_opt (database !! "host")); cbn [negb]; [ | discriminate].
  destruct (truthy_opt (database !! "name")); cbn [negb]; [ | discriminate].
  destruct (truthy_opt (storage !! "bucket")); cbn [negb]; [ | discriminate].
  intros _. exists t, u. repeat split; assumption.
Qed.


(** X8.  Validation accepts a specification exactly when the database type
    and the storage type are there and supported by the configuration, and
    host, name and bucket are there with a value that is not empty.  What it
    raises otherwise is the [KeyError] of a missing type entry or a
    permanent error. *)
Theorem validation_accepts_iff (c : OperatorConfig.t) (database storage : dict) :
  (_validate_spec_with c database storage = inr tt <->
   exists t u,
     database !! "type" = Some t /\ OperatorConfig.is_database_supported c t = true /\
     storage !! "type" = Some u /\ OperatorConfig.is_storage_supported c u = true /\
     present database "host" = true /\ present database "name" = true /\
     present storage "bucket" = true) /\
  (forall e, _validate_spec_with c database storage = inl e ->
     e = KeyError "type" \/ exists msg, e = PermanentError msg).
Proof.
  split; [split; [apply _validate_spec_with_accepts | ] | ].
  - intros (t & u & Ht & Hst & Hu & Hsu & Hh & Hn & Hb).
    unfold _validate_spec_with, getitem. unfold present in Hh, Hn, Hb.
    rewrite Ht, Hu. cbn [mbind sum_bind]. now rewrite Hst, Hsu, Hh, Hn, Hb.
  - intros e. unfold _validate_spec_with, getitem.
    destruct (database !! "type") as [t | ]; cbn [mbind sum_bind];
      [ | intros H; injection H as <-; now left].
    destruct (negb (OperatorConfig.is_database_supported c t));
      [intros H; injection H as <-; eauto | ].
    destruct (storage !! "type") as [u | ]; cbn [mbind sum_bind];
      [ | intros H; injection H as <-; now left].
    destruct (negb (OperatorConfig.is_storage_supported c u));
      [intros H; injection H as <-; eauto | ].
    repeat match goal with |- context [if ?b then _ else _] => destruct b end;
      intros H; try discriminate H; injection H as <-; eauto.
Qed.



(** ** What the storage type and the optional keys decide *)

(** X10.  The storage type decides the default region and nothing else:
    changing it leaves the image and the command of the container as they
    are (the upload is the same [aws s3] command for every storage type),
    and leaves the whole manifest as it is when the storage names its
    region. *)
Theorem storage_type_decides_region_only (c : OperatorConfig.t) (name ns : string)
    (schedule : pyval) (database storage : dict) (retention u' : pyval) (m : manifest) :
  cronjob_manifest_with c name ns schedule database storage retention = inr m ->
  exists m',
    cronjob_manifest_with c name ns schedule database (<["type" := u']> storage) retention
      = inr m' /\
    container_args m' = container_args m /\
    container_image m' = container_image m /\
    (is_Some (storage !! "region") -> m' = m).
Proof.
  intros Hm. pose proof Hm as Hinv.
  apply cronjob_manifest_with_returns in Hinv
    as (t & h & d & b & u & k & fallback & Ht & Hh & Hd & Hb & Hu & Hk & Hf).
  destruct (backup_command_total t h d) as [cmd Hcmd].
  assert (Hup : exists upload, get_upload_command b ns name retention = inr upload).
  { unfold get_upload_command. rewrite Hk. eexists. reflexivity. }
  destruct Hup as [upload Hup].
  assert (Hi : exists image, OperatorConfig.get_database_image c t = inr image).
  { unfold OperatorConfig.get_database_image. rewrite Hf.
    destruct (lookup_val _ t); eexists; reflexivity. }
  destruct Hi as [image Hi].
  assert (Hb' : <["type" := u']> storage !! "bucket" = Some b)
    by (now rewrite lookup_insert_ne by discriminate).
  assert (Hu' : <["type" := u']> storage !! "type" = Some u') by apply lookup_insert_eq.
  destruct (cronjob_manifest_with_shape c name ns schedule database storage retention
              t h d b u cmd upload image Ht Hh Hd Hb Hu Hcmd Hup Hi)
    as (m0 & Hm0 & _ & _ & _ & Himage & Hargs & _).
  rewrite Hm in Hm0. injection Hm0 as <-.
  destruct (cronjob_manifest_with_shape c name ns schedule database (<["type" := u']> storage)
              retention t h d b u' cmd upload image Ht Hh Hd Hb' Hu' Hcmd Hup Hi)
    as (m' & Hm' & _ & _ & _ & Himage' & Hargs' & _).
  exists m'. split; [exact Hm' | ]. split; [congruence | ]. split; [congruence | ].
  intros [r Hr]. revert Hm Hm'. unfold cronjob_manifest_with, getitem, get_default.
  rewrite Ht, Hh, Hd, Hb, Hu, Hb', Hu'. cbn [mbind sum_bind].
  rewrite !(lookup_insert_ne storage "type") by discriminate. rewrite Hr.
  rewrite Hcmd, Hup, Hi. cbn [mbind sum_bind mret sum_ret]. congruence.
Qed.

Lemma storage_type_decides_region_only_witness :
  exists m',
    cronjob_manifest_with (OperatorConfig.from_env ∅) "orders-db" "prod" (PStr "0 3 * * *")
      example_database (<["type" := PStr "gcs"]> example_storage) (PInt 5) = inr m' /\
    container_args m' = container_args example_built /\
    container_image m' = container_image example_built /\
    (is_Some (example_storage !! "region") -> m' = example_built).
Proof.
  apply (storage_type_decides_region_only (OperatorConfig.from_env ∅) "orders-db" "prod"
           (PStr "0 3 * * *") example_database example_storage (PInt 5) (PStr "gcs")
           example_built).
  vm_compute. reflexivity.
Defined.

(** X11.  The secrets and the region of the environment list: a
    [credentialsSecret] of the database or of the storage, and a [region]
    of the storage, are used as given; without them the secrets are named
    after the backup resource and the region is the default of the storage
    type, [us-east-1] when the type has none. *)
Theorem environment_defaults (c : OperatorConfig.t) (name ns : string)
    (schedule : pyval) (database storage : dict) (retention u : pyval) (m : manifest) :
  cronjob_manifest_with c name ns schedule database storage retention = inr m ->
  storage !! "type" = Some u ->
  let db_creds := default (PStr (name ++ "-db-creds")) (database !! "credentialsSecret") in
  let storage_creds :=
    default (PStr (name ++ "-storage-creds")) (storage !! "credentialsSecret") in
  let region :=
    default
      (PStr (default "us-east-1"
               (lookup_val (StorageConfig.default_regions (OperatorConfig.storage c)) u)))
      (storage !! "region") in
  exists env,
    container_env m = Some (MList env) /\
    In (MDict [("name", MStr "DB_USER");
               ("valueFrom", MDict [("secretKeyRef",
                  MDict [("name", MVal db_creds); ("key", MStr "username")])])]) env /\
    In (MDict [("name", MStr "AWS_ACCESS_KEY_ID");
               ("valueFrom", MDict [("secretKeyRef",
                  MDict [("name", MVal storage_creds); ("key", MStr "access-key")])])]) env /\
    In (MDict [("name", MStr "AWS_SECRET_ACCESS_KEY");
               ("valueFrom", MDict [("secretKeyRef",
                  MDict [("name", MVal storage_creds); ("key", MStr "secret-key")])])]) env /\
    In (MDict [("name", MStr "AWS_DEFAULT_REGION"); ("value", MVal region)]) env.
Proof.
  intros Hm Hu db_creds storage_creds region. subst db_creds storage_creds region.
  pose proof Hm as Hinv.
  apply cronjob_manifest_with_returns in Hinv
    as (t & h & d & b & u0 & k & fallback & Ht & Hh & Hd & Hb & Hu0 & Hk & Hf).
  rewrite Hu in Hu0. injection Hu0 as <-.
  destruct (backup_command_total t h d) as [cmd Hcmd].
  assert (Hup : exists upload, get_upload_command b ns name retention = inr upload).
  { unfold get_upload_command. rewrite Hk. eexists. reflexivity. }
  destruct Hup as [upload Hup].
  assert (Hi : exists image, OperatorConfig.get_database_image c t = inr image).
  { unfold OperatorConfig.get_database_image. rewrite Hf.
    destruct (lookup_val _ t); eexists; reflexivity. }
  destruct Hi as [image Hi].
  destruct (cronjob_manifest_with_shape c name ns schedule database storage retention
              t h d b u cmd upload image Ht Hh Hd Hb Hu Hcmd Hup Hi)
    as (m0 & Hm0 & _ & _ & _ & _ & _ & Henv).
  rewrite Hm in Hm0. injection Hm0 as <-.
  eexists. split; [exact Henv | ].
  unfold _get_container_env, get_default, OperatorConfig.get_default_region.
  destruct (in_strs t ["postgres"; "mysql"]); cbn; auto 10.
Qed.

Lemma environment_defaults_witness :
  exists env,
    container_env example_built = Some (MList env) /\
    In (MDict [("name", MStr "DB_USER");
               ("valueFrom", MDict [("secretKeyRef",
                  MDict [("name", MStr "orders-db-db-creds"); ("key", MStr "username")])])])
       env /\
    In (MDict [("name", MStr "AWS_ACCESS_KEY_ID");
               ("valueFrom", MDict [("secretKeyRef",
                  MDict [("name", MStr "orders-db-storage-creds");
                         ("key", MStr "access-key")])])]) env /\
    In (MDict [("name", MStr "AWS_SECRET_ACCESS_KEY");
               ("valueFrom", MDict [("secretKeyRef",
                  MDict [("name", MStr "orders-db-storage-creds");
                         ("key", MStr "secret-key")])])]) env /\
    In (MDict [("name", MStr "AWS_DEFAULT_REGION"); ("value", MStr "us-east-1")]) env.
Proof.
  assert (H := environment_defaults (OperatorConfig.from_env ∅) "orders-db" "prod"
                 (PStr "0 3 * * *") example_database example_storage (PInt 5) (PStr "s3")
                 example_built).
  destruct H as (env & He & H1 & H2 & H3 & H4); try (vm_compute; reflexivity).
  exists env. split; [exact He | ]. split; [exact H1 | ]. split; [exact H2 | ].
  split; [exact H3 | exact H4].
Defined.

(** X12.  For a configuration that passes its own validation, every
    manifest the builder returns gives the job a deadline of at least
    sixty seconds: the timeout of the configuration. *)
Theorem job_deadline_bound (c : OperatorConfig.t) (name ns : string) (schedule : pyval)
    (database storage : dict) (retention : pyval) (m : manifest) :
  OperatorConfig.validate c = inr tt ->
  cronjob_manifest_with c name ns schedule database storage retention = inr m ->
  path ["spec"; "jobTemplate"; "spec"; "activeDeadlineSeconds"] m =
    Some (MInt (BackupConfig.backup_timeout_seconds (OperatorConfig.backup c))) /\
  60 <= BackupConfig.backup_timeout_seconds (OperatorConfig.backup c).
Proof.
  intros Hv Hm. split.
  - revert Hm. unfold cronjob_manifest_with, getitem.
    destruct (database !! "type") as [t | ]; cbn [mbind sum_bind]; [ | discriminate].
    destruct (database !! "host") as [h | ]; cbn [mbind sum_bind]; [ | discriminate].
    destruct (database !! "name") as [d | ]; cbn [mbind sum_bind]; [ | discriminate].
    destruct (storage !! "bucket") as [b | ]; cbn [mbind sum_bind]; [ | discriminate].
    destruct (storage !! "type") as [u | ]; cbn [mbind sum_bind]; [ | discriminate].
    destruct (backup_command t h d) as [e | cmd]; cbn [mbind sum_bind]; [discriminate | ].
    destruct (get_upload_command b ns name retention) as [e | upload];
      cbn [mbind sum_bind]; [discriminate | ].
    destruct (OperatorConfig.get_database_image c t) as [e | image];
      cbn [mbind sum_bind mret sum_ret]; [discriminate | ].
    intros H. injection H as <-. reflexivity.
  - revert Hv. unfold OperatorConfig.validate.
    destruct (OperatorConfig.reconciliation_interval c <? 60); [discriminate | ].
    destruct (_ <? 1); [discriminate | ].
    destruct (BackupConfig.backup_timeout_seconds (OperatorConfig.backup c) <? 60) eqn:H;
      [discriminate | ].
    intros _. lia.
Qed.

Lemma job_deadline_bound_witness :
  path ["spec"; "jobTemplate"; "spec"; "activeDeadlineSeconds"] example_built =
    Some (MInt (BackupConfig.backup_timeout_seconds
                  (OperatorConfig.backup (OperatorConfig.from_env ∅)))) /\
  60 <= BackupConfig.backup_timeout_seconds (OperatorConfig.backup (OperatorConfig.from_env ∅)).
Proof.
  apply (job_deadline_bound (OperatorConfig.from_env ∅) "orders-db" "prod" (PStr "0 3 * * *")
           example_database example_storage (PInt 5) example_built);
    vm_compute; reflexivity.
Defined.

(** ** More on the cleanup pipeline *)



(** Two lists sorted in descending order with the same elements are the
    same list. *)
Lemma sorted_desc_unique (l1 l2 : list string) :
  StronglySorted (desc id) l1 -> StronglySorted (desc id) l2 ->
  Permutation l1 l2 -> l1 = l2.
Proof.
  intros H1. revert l2. induction H1 as [ | x l1 Hs IH Hx]; intros l2 H2 Hp.
  - now apply Permutation_nil in Hp.
  - destruct H2 as [ | y l2 Hs2 Hy].
    + symmetry in Hp. now apply Permutation_nil in Hp.
    + assert (x = y) as <-.
      { rewrite List.Forall_forall in Hx, Hy.
        assert (Hxin : In x (y :: l2))
          by (eapply Permutation_in; [exact Hp | now left]).
        assert (Hyin : In y (x :: l1))
          by (eapply Permutation_in; [symmetry; exact Hp | now left]).
        destruct Hxin as [-> | Hxin]; [reflexivity | ].
        destruct Hyin as [-> | Hyin]; [reflexivity | ].
        apply String.leb_antisym; [apply (Hy x Hxin) | apply (Hx y Hyin)]. }
      f_equal. apply IH; [exact Hs2 | ]. now apply Permutation_cons_inv in Hp.
Qed.

(** X14.  The delete set does not depend on the order in which the service
    lists the objects, whatever the retention and the objects. *)
Theorem cleanup_ignores_listing_order (bucket : pyval) (ns name : string) (retention : pyval)
    (objects objects' : list s3_object) :
  Permutation objects objects' ->
  cleanup_deletes bucket ns name retention objects =
  cleanup_deletes bucket ns name retention objects'.
Proof.
  intros Hp. unfold cleanup_deletes, cleanup_run.
  destruct (succ_val retention) as [e | k]; [reflexivity | ].
  unfold run, cleanup_pipeline. cbn [run_from run_stage fst].
  rewrite (sorted_desc_unique (sort_desc id (map ls_line objects))
             (sort_desc id (map ls_line objects'))); [reflexivity | | | ].
  - apply sort_desc_sorted.
  - apply sort_desc_sorted.
  - rewrite <- !sort_desc_perm. now apply Permutation_map.
Qed.

Lemma cleanup_ignores_listing_order_witness :
  cleanup_deletes (PStr "backups") "prod" "orders-db" (PInt 2) example_objects =
  cleanup_deletes (PStr "backups") "prod" "orders-db" (PInt 2) (rev example_objects).
Proof.
  apply (cleanup_ignores_listing_order (PStr "backups") "prod" "orders-db" (PInt 2)
           example_objects (rev example_objects)).
  apply Permutation_rev.
Defined.

Lemma sorted_head_max {A : Type} (line : A -> string) (x : A) (l : list A) (y : A) :
  StronglySorted (desc line) (x :: l) -> In y (x :: l) ->
  String.leb (line y) (line x) = true.
Proof.
  intros Hs [<- | Hy]; [apply str_leb_refl | ].
  apply StronglySorted_inv in Hs as [_ Hx]. rewrite List.Forall_forall in Hx. now apply Hx.
Qed.

(** X15.  With a retention of at least one, and keys written with plain
    characters (no white space, quote or backslash), the object that is
    strictly the most recent of the listing is never in the delete set:
    the dump just uploaded survives the cleanup that follows it. *)
Theorem newest_object_survives (bucket : pyval) (ns name : string) (N : Z)
    (objects : list s3_object) (o : s3_object) :
  1 <= N ->
  Forall (fun o => plain_object o = true) objects ->
  NoDup (map key objects) ->
  In o objects ->
  (forall o', In o' objects -> o' <> o -> String.leb (timestamp o) (timestamp o') = false) ->
  exists uris,
    cleanup_run bucket ns name (PInt N) objects = Some (uris, true) /\
    ~ In (s3_prefix bucket ns name ++ key o) uris.
Proof.
  intros HN Hplain Hnd Ho Hnew.
  assert (Hwf : Forall (fun o => wf_object o = true) objects).
  { eapply List.Forall_impl; [ | exact Hplain]. intros o'. apply plain_object_wf. }
  unfold cleanup_run. cbn [succ_val].
  rewrite run_cleanup_pipeline by (assumption || lia).
  replace (N + 1 - 1) with N by lia.
  eexists. split; [reflexivity | ].
  pose proof (sort_desc_perm ls_line objects) as Hperm.
  pose proof (sort_desc_sorted ls_line objects) as Hsorted.
  assert (Hwfs : Forall (fun o => wf_object o = true) (sort_desc ls_line objects))
    by (eapply Permutation_Forall; eassumption).
  assert (Hnds : NoDup (map key (sort_desc ls_line objects))).
  { pose proof (Permutation_map key Hperm) as Hp'. now rewrite <- Hp'. }
  assert (Hos : In o (sort_desc ls_line objects))
    by (eapply Permutation_in; eassumption).
  destruct (sort_desc ls_line objects) as [ | h rest] eqn:E; [destruct Hos | ].
  assert (h = o) as ->.
  { destruct (wf_object h) eqn:Hwh;
      [ | apply Forall_cons_1 in Hwfs as [Hh _]; congruence].
    assert (Hho : String.leb (ls_line o) (ls_line h) = true)
      by (eapply sorted_head_max; eassumption).
    assert (Hwo : wf_object o = true).
    { rewrite List.Forall_forall in Hwf. now apply Hwf. }
    apply (desc_line_timestamp h o Hwh Hwo) in Hho. unfold desc in Hho.
    destruct (s3_object_eq_dec h o) as [Heq | Hne]; [exact Heq | ].
    rewrite Hnew in Hho; [discriminate Hho | | exact Hne].
    eapply Permutation_in; [symmetry; exact Hperm | now left]. }
  intros Hin. apply in_map_iff in Hin as (d & Hd & Hdin).
  apply (inj (String.app _)) in Hd.
  assert (Hdrest : In d rest).
  { destruct (Z.to_nat N) as [ | n] eqn:En; [lia | ].
    cbn [skipn] in Hdin. rewrite <- (firstn_skipn n rest). apply List.in_or_app. now right. }
  cbn [map] in Hnds. apply NoDup_cons in Hnds as [Hnot _].
  apply Hnot. rewrite <- Hd. apply list_elem_of_In. now apply in_map.
Qed.

Lemma newest_object_survives_witness :
  exists uris,
    cleanup_run (PStr "backups") "prod" "orders-db" (PInt 1) example_objects = Some (uris, true) /\
    ~ In (s3_prefix (PStr "backups") "prod" "orders-db" ++
          "backup-20240103-030000.sql.gz") uris.
Proof.
  apply (newest_object_survives (PStr "backups") "prod" "orders-db" 1 example_objects
           (mkObject "2024-01-03" "03:00:09" 52340 "backup-20240103-030000.sql.gz")).
  - lia.
  - repeat constructor.
  - cbn [map example_objects key].
    repeat (constructor;
            [let H := fresh in
             intros H;
             repeat (apply elem_of_cons in H as [H | H]; [discriminate H | ]);
             now apply elem_of_nil in H | ]);
    constructor.
  - cbn. auto.
  - intros o' [<- | [<- | [<- | []]]] Hne; try reflexivity. now destruct Hne.
Defined.

(** ** More on the handlers *)

Section HandlerFacts.
Context {C : Type} (api : BatchV1Api C) (adopt : manifest -> manifest).
Variables (c : OperatorConfig.t) (env : environment).
Variables (cl : C) (cs : list api_call) (patch : dict).
Variables (spec : backup_spec) (name ns : string).

Let p := mkProcess (Some c) env.
Let w := mkWorld p cl cs patch.
Let deletion := DeleteCronJob (name ++ "-backup") ns "Foreground".

(** X16.  The update handler deletes before it looks at the specification.
    Once the deletion has succeeded, whatever the handler raises other than
    the request to retry (a missing key, a retention that is not an
    integer, a validation failure) leaves the cluster as the deletion left
    it, the deletion being the only call made. *)
Theorem update_failure_after_delete (cl1 : C) (e : exn) :
  delete_namespaced_cron_job api (name ++ "-backup") ns "Foreground" cl = (inr tt, cl1) ->
  fst (update_backup_job api adopt spec name ns w) = inl e ->
  (forall msg d, e <> TemporaryError msg d) ->
  snd (update_backup_job api adopt spec name ns w) = mkWorld p cl1 (cs ++ [deletion]) patch.
Proof.
  intros Hdel. subst w p deletion. rewrite update_backup_job_run. cbv zeta. rewrite Hdel.
  destruct (spec_item "database" _) as [e1 | db]; [reflexivity | ].
  destruct (spec_item "storage" _) as [e1 | st]; [reflexivity | ].
  destruct (_validate_spec_with c db st) as [e1 | []]; [reflexivity | ].
  destruct (cronjob_manifest_with c name ns _ db st _) as [e1 | m]; [reflexivity | ].
  destruct (create_namespaced_cron_job api ns (adopt m) cl1) as [[e1 | []] cl2];
    cbn [fst snd]; [ | discriminate].
  intros H Hne. injection H as <-. now destruct (Hne _ _ eq_refl).
Qed.

(** X17.  Whatever the specification and the state of the cluster, the
    first call of the update handler is the deletion of the CronJob of the
    resource, and it is followed by at most one call: the creation, in the
    namespace of the resource, of the manifest built from the
    specification.  No creation follows a deletion that failed. *)
Theorem update_calls (cl1 : C) (d : ApiException + unit) :
  delete_namespaced_cron_job api (name ++ "-backup") ns "Foreground" cl = (d, cl1) ->
  calls (snd (update_backup_job api adopt spec name ns w)) = (cs ++ [deletion])%list \/
  (d = inr tt /\
   exists db st m,
     database spec = Some db /\ storage spec = Some st /\
     _validate_spec_with c db st = inr tt /\
     cronjob_manifest_with c name ns
       (default (PStr (BackupConfig.default_schedule (OperatorConfig.backup c))) (schedule spec))
       db st
       (spec_keep_last spec
          (PInt (BackupConfig.default_retention_days (OperatorConfig.backup c)))) = inr m /\
     calls (snd (update_backup_job api adopt spec name ns w)) =
       ((cs ++ [deletion]) ++ [CreateCronJob ns (adopt m)])%list).
Proof.
  intros Hdel. subst w p deletion. rewrite update_backup_job_run. cbv zeta. rewrite Hdel.
  destruct d as [e | []]; [now left | ].
  destruct (database spec) as [db | ]; [ | now left].
  destruct (storage spec) as [st | ]; [ | now left]. cbn [spec_item].
  destruct (_validate_spec_with c db st) as [e1 | []] eqn:Hv; [now left | ].
  match goal with
  | |- context [cronjob_manifest_with c name ns ?s db st ?k] =>
      destruct (cronjob_manifest_with c name ns s db st k) as [e1 | m] eqn:Hm; [now left | ]
  end.
  destruct (create_namespaced_cron_job api ns (adopt m) cl1) as [r cl2].
  right. split; [reflexivity | ]. exists db, st, m. auto.
Qed.

(** X18.  The create, update and delete handlers never write the status
    patch and never change the configuration of the process. *)
Theorem lifecycle_handlers_leave_status :
  patch_status (snd (create_backup_job api adopt spec name ns w)) = patch /\
  proc (snd (create_backup_job api adopt spec name ns w)) = p /\
  patch_status (snd (update_backup_job api adopt spec name ns w)) = patch /\
  proc (snd (update_backup_job api adopt spec name ns w)) = p /\
  delete_backup_job name ns w =
    (inr (MDict [("message", MStr ("Backup job " ++ name ++ " deleted"))]), w).
Proof.
  subst w p. rewrite create_backup_job_run, update_backup_job_run. cbv zeta.
  split; [ | split; [ | split; [ | split; [ | reflexivity]]]].
  - destruct (spec_item "database" _) as [e1 | db]; [reflexivity | ].
    destruct (spec_item "storage" _) as [e1 | st]; [reflexivity | ].
    destruct (_validate_spec_with c db st) as [e1 | []]; [reflexivity | ].
    destruct (cronjob_manifest_with c name ns _ db st _) as [e1 | m]; [reflexivity | ].
    now destruct (create_namespaced_cron_job api ns (adopt m) cl).
  - destruct (spec_item "database" _) as [e1 | db]; [reflexivity | ].
    destruct (spec_item "storage" _) as [e1 | st]; [reflexivity | ].
    destruct (_validate_spec_with c db st) as [e1 | []]; [reflexivity | ].
    destruct (cronjob_manifest_with c name ns _ db st _) as [e1 | m]; [reflexivity | ].
    now destruct (create_namespaced_cron_job api ns (adopt m) cl).
  - destruct (delete_namespaced_cron_job api _ ns "Foreground" cl) as [[e | []] cl1];
      [reflexivity | ].
    destruct (spec_item "database" _) as [e1 | db]; [reflexivity | ].
    destruct (spec_item "storage" _) as [e1 | st]; [reflexivity | ].
    destruct (_validate_spec_with c db st) as [e1 | []]; [reflexivity | ].
    destruct (cronjob_manifest_with c name ns _ db st _) as [e1 | m]; [reflexivity | ].
    now destruct (create_namespaced_cron_job api ns (adopt m) cl1).
  - destruct (delete_namespaced_cron_job api _ ns "Foreground" cl) as [[e | []] cl1];
      [reflexivity | ].
    destruct (spec_item "database" _) as [e1 | db]; [reflexivity | ].
    destruct (spec_item "storage" _) as [e1 | st]; [reflexivity | ].
    destruct (_validate_spec_with c db st) as [e1 | []]; [reflexivity | ].
    destruct (cronjob_manifest_with c name ns _ db st _) as [e1 | m]; [reflexivity | ].
    now destruct (create_namespaced_cron_job api ns (adopt m) cl1).
Qed.

(** X19.  The create handler calls the cluster only once validation and
    the builder have both succeeded: when either of them raises, the
    handler raises the same error and leaves cluster and call log as they
    were. *)
Theorem create_fails_before_any_call (db st : dict) (e : exn) :
  database spec = Some db ->
  storage spec = Some st ->
  _validate_spec_with c db st = inl e \/
  (_validate_spec_with c db st = inr tt /\
   cronjob_manifest_with c name ns
     (default (PStr (BackupConfig.default_schedule (OperatorConfig.backup c))) (schedule spec))
     db st
     (spec_keep_last spec
        (PInt (BackupConfig.default_retention_days (OperatorConfig.backup c)))) = inl e) ->
  create_backup_job api adopt spec name ns w = (inl e, w).
Proof.
  intros Hdb Hst H. subst w p. rewrite create_backup_job_run. cbv zeta.
  rewrite Hdb, Hst. cbn [spec_item].
  destruct H as [-> | [-> ->]]; reflexivity.
Qed.

(** X20.  When the create call succeeds, the handler returns a payload
    that names the CronJob by the name the manifest carries and reports
    the retention in force; the cluster is as the call left it. *)
Theorem create_success_payload (db st : dict) (m : manifest) (cl' : C) :
  database spec = Some db ->
  storage spec = Some st ->
  _validate_spec_with c db st = inr tt ->
  cronjob_manifest_with c name ns
    (default (PStr (BackupConfig.default_schedule (OperatorConfig.backup c))) (schedule spec))
    db st
    (spec_keep_last spec
       (PInt (BackupConfig.default_retention_days (OperatorConfig.backup c)))) = inr m ->
  create_namespaced_cron_job api ns (adopt m) cl = (inr tt, cl') ->
  exists payload,
    create_backup_job api adopt spec name ns w =
      (inr payload, mkWorld p cl' (cs ++ [CreateCronJob ns (adopt m)]) patch) /\
    field "cronjob" payload = path ["metadata"; "name"] m /\
    field "retention" payload =
      Some (MVal (spec_keep_last spec
                    (PInt (BackupConfig.default_retention_days (OperatorConfig.backup c))))).
Proof.
  intros Hdb Hst Hv Hm Hcall. subst w p. rewrite create_backup_job_run. cbv zeta.
  rewrite Hdb, Hst. cbn [spec_item]. rewrite Hv, Hm, Hcall.
  eexists. split; [reflexivity | ].
  apply cronjob_manifest_with_metadata in Hm as [-> _]. split; reflexivity.
Qed.

(** X21.  The status check makes one call, the read of the CronJob of the
    resource in its namespace, and leaves the process as it was; the
    cluster is as the read left it. *)
Theorem status_check_reads_once :
  calls (snd (check_backup_status api name ns w)) =
    (cs ++ [ReadCronJob (name ++ "-backup") ns])%list /\
  proc (snd (check_backup_status api name ns w)) = p /\
  kube (snd (check_backup_status api name ns w)) =
    snd (read_namespaced_cron_job api (name ++ "-backup") ns cl).
Proof.
  subst w p. rewrite check_backup_status_run.
  now destruct (read_namespaced_cron_job api (name ++ "-backup") ns cl).
Qed.

(** X22.  A successful status check does not touch [error]: after a tick
    whose read succeeds, the resource still carries the error message it
    had, under the phase Active or Pending. *)
Theorem status_check_keeps_stale_error (resource_status : dict) (cronjob : V1CronJob)
    (cl' : C) :
  read_namespaced_cron_job api (name ++ "-backup") ns cl = (inr cronjob, cl') ->
  let patch' :=
    patch_status (snd (check_backup_status api name ns (mkWorld p cl cs ∅))) in
  apply_patch resource_status patch' !! "error" = resource_status !! "error" /\
  (apply_patch resource_status patch' !! "phase" = Some (PStr "Active") \/
   apply_patch resource_status patch' !! "phase" = Some (PStr "Pending")).
Proof.
  intros Hread patch'. subst patch' p. rewrite check_backup_status_run, Hread.
  cbn [snd patch_status]. unfold apply_patch. split.
  - apply lookup_union_r.
    destruct (last_schedule_time (status cronjob));
      rewrite !lookup_insert_ne by discriminate; apply lookup_empty.
  - destruct (last_schedule_time (status cronjob)); [left | right];
      (erewrite lookup_union_Some_l; [reflexivity | ]);
      rewrite lookup_insert_ne by discriminate; apply lookup_insert_eq.
Qed.
End HandlerFacts.

(** X16, on the simulated cluster: an update whose [keepLast] is a string
    deletes the CronJob of the example and raises [TypeError]. *)
Lemma update_failure_after_delete_witness :
  snd (update_backup_job simulated (adopt_by "orders-db") example_spec_text_retention
         "orders-db" "prod" (mkWorld example_process example_cluster [] ∅)) =
    mkWorld example_process ∅ [DeleteCronJob "orders-db-backup" "prod" "Foreground"] ∅.
Proof.
  apply (update_failure_after_delete simulated (adopt_by "orders-db")
           (OperatorConfig.from_env ∅) ∅ example_cluster [] ∅
           example_spec_text_retention "orders-db" "prod" ∅
           (TypeError ("can only concatenate str (not " ++ dquote ++ "int" ++ dquote ++ ") to str"))).
  - vm_compute. reflexivity.
  - vm_compute. reflexivity.
  - discriminate.
Defined.

Lemma update_calls_witness :
  calls (snd (update_backup_job simulated (adopt_by "orders-db") example_spec
                "orders-db" "prod" (mkWorld example_process example_cluster [] ∅))) =
    ([] ++ [DeleteCronJob ("orders-db" ++ "-backup") "prod" "Foreground"])%list \/
  ((inr tt : ApiException + unit) = inr tt /\
   exists db st m,
     database example_spec = Some db /\ storage example_spec = Some st /\
     _validate_spec_with (OperatorConfig.from_env ∅) db st = inr tt /\
     cronjob_manifest_with (OperatorConfig.from_env ∅) "orders-db" "prod"
       (default (PStr (BackupConfig.default_schedule
                         (OperatorConfig.backup (OperatorConfig.from_env ∅))))
                (schedule example_spec))
       db st
       (spec_keep_last example_spec
          (PInt (BackupConfig.default_retention_days
                   (OperatorConfig.backup (OperatorConfig.from_env ∅))))) = inr m /\
     calls (snd (update_backup_job simulated (adopt_by "orders-db") example_spec
                   "orders-db" "prod" (mkWorld example_process example_cluster [] ∅))) =
       (([] ++ [DeleteCronJob ("orders-db" ++ "-backup") "prod" "Foreground"]) ++
        [CreateCronJob "prod" (adopt_by "orders-db" m)])%list).
Proof.
  apply (update_calls simulated (adopt_by "orders-db") (OperatorConfig.from_env ∅) ∅
           example_cluster [] ∅ example_spec "orders-db" "prod" ∅ (inr tt)).
  vm_compute. reflexivity.
Defined.

Lemma create_fails_before_any_call_witness :
  create_backup_job simulated (adopt_by "orders-db") example_spec_no_host "orders-db" "prod"
    example_world =
    (inl (PermanentError "Database host is required"), example_world).
Proof.
  apply (create_fails_before_any_call simulated (adopt_by "orders-db")
           (OperatorConfig.from_env ∅) ∅ ∅ [] ∅ example_spec_no_host "orders-db" "prod"
           (delete "host" example_database) example_storage
           (PermanentError "Database host is required")).
  - reflexivity.
  - reflexivity.
  - left. vm_compute. reflexivity.
Defined.

Lemma create_success_payload_witness :
  exists payload,
    create_backup_job simulated (adopt_by "orders-db") example_spec "orders-db" "prod"
      example_world =
      (inr payload,
       mkWorld example_process example_cluster
         ([] ++ [CreateCronJob "prod" (adopt_by "orders-db" example_built)]) ∅) /\
    field "cronjob" payload = path ["metadata"; "name"] example_built /\
    field "retention" payload =
      Some (MVal (spec_keep_last example_spec
                    (PInt (BackupConfig.default_retention_days
                             (OperatorConfig.backup (OperatorConfig.from_env ∅)))))).
Proof.
  apply (create_success_payload simulated (adopt_by "orders-db") (OperatorConfig.from_env ∅) ∅
           ∅ [] ∅ example_spec "orders-db" "prod" example_database example_storage
           example_built example_cluster); vm_compute; reflexivity.
Defined.

Lemma status_check_keeps_stale_error_witness :
  apply_patch example_error_status
    (patch_status (snd (check_backup_status simulated "orders-db" "prod"
                          (mkWorld example_process example_cluster [] ∅)))) !! "error"
    = example_error_status !! "error" /\
  (apply_patch example_error_status
     (patch_status (snd (check_backup_status simulated "orders-db" "prod"
                           (mkWorld example_process example_cluster [] ∅)))) !! "phase"
     = Some (PStr "Active") \/
   apply_patch example_error_status
     (patch_status (snd (check_backup_status simulated "orders-db" "prod"
                           (mkWorld example_process example_cluster [] ∅)))) !! "phase"
     = Some (PStr "Pending")).
Proof.
  apply (status_check_keeps_stale_error simulated (OperatorConfig.from_env ∅) ∅
           example_cluster [] "orders-db" "prod" example_error_status
           (mkCronJob (mkStatus None None)) example_cluster).
  vm_compute. reflexivity.
Defined.

(** ** The handlers on the simulated cluster *)

(** X23.  On a cluster where the CronJob of the resource is missing, the
    update handler fails in its deletion and asks for a retry without
    having changed the cluster: whatever the specification, a retry finds
    the same cluster and fails the same way, so an update never restores a
    CronJob that is gone. *)
Theorem update_cannot_restore_missing_cronjob (adopt : manifest -> manifest)
    (c : OperatorConfig.t) (env : environment) (cl : cluster) (cs : list api_call)
    (patch : dict) (spec : backup_spec) (name ns : string) :
  cl !! (ns, name ++ "-backup") = None ->
  update_backup_job simulated adopt spec name ns (mkWorld (mkProcess (Some c) env) cl cs patch) =
    (inl (TemporaryError ("Cannot update CronJob: " ++ str_ApiException not_found) 30),
     mkWorld (mkProcess (Some c) env) cl
       (cs ++ [DeleteCronJob (name ++ "-backup") ns "Foreground"]) patch).
Proof.
  intros H. rewrite update_backup_job_run. cbv zeta.
  cbn [simulated delete_namespaced_cron_job]. now rewrite H.
Qed.

Lemma update_cannot_restore_missing_cronjob_witness :
  update_backup_job simulated (adopt_by "orders-db") example_spec "orders-db" "prod"
    example_world =
    (inl (TemporaryError ("Cannot update CronJob: " ++ str_ApiException not_found) 30),
     mkWorld example_process ∅
       ([] ++ [DeleteCronJob ("orders-db" ++ "-backup") "prod" "Foreground"]) ∅).
Proof.
  apply (update_cannot_restore_missing_cronjob (adopt_by "orders-db")
           (OperatorConfig.from_env ∅) ∅ ∅ [] ∅ example_spec "orders-db" "prod").
  reflexivity.
Defined.

(** X24.  On a cluster without the CronJob of the resource, a create
    followed by an update with the same valid specification succeeds
    twice and leaves the cluster as the create left it, with the CronJob
    under the name the manifest carries; the status check that follows
    reports the phase Pending and no running job. *)
Theorem create_update_check (adopt : manifest -> manifest)
    (c : OperatorConfig.t) (env : environment) (cl : cluster) (cs : list api_call)
    (patch : dict) (spec : backup_spec) (name ns : string) (db st : dict) (m : manifest) :
  cl !! (ns, name ++ "-backup") = None ->
  database spec = Some db ->
  storage spec = Some st ->
  _validate_spec_with c db st = inr tt ->
  cronjob_manifest_with c name ns
    (default (PStr (BackupConfig.default_schedule (OperatorConfig.backup c))) (schedule spec))
    db st
    (spec_keep_last spec
       (PInt (BackupConfig.default_retention_days (OperatorConfig.backup c)))) = inr m ->
  body_name (adopt m) = Some (name ++ "-backup") ->
  let w0 := mkWorld (mkProcess (Some c) env) cl cs patch in
  let w1 := snd (create_backup_job simulated adopt spec name ns w0) in
  let w2 := snd (update_backup_job simulated adopt spec name ns w1) in
  let w3 := snd (check_backup_status simulated name ns w2) in
  (exists r, fst (create_backup_job simulated adopt spec name ns w0) = inr r) /\
  (exists r, fst (update_backup_job simulated adopt spec name ns w1) = inr r) /\
  kube w1 = <[(ns, name ++ "-backup") := (adopt m, mkStatus None None)]> cl /\
  kube w2 = kube w1 /\
  patch_status w3 !! "phase" = Some (PStr "Pending") /\
  patch_status w3 !! "activeJobs" = Some (PInt 0).
Proof.
  intros Hcl Hdb Hst Hv Hm Hbody. cbv zeta.
  rewrite create_backup_job_run. cbv zeta.
  rewrite Hdb, Hst. cbn [spec_item]. rewrite Hv, Hm.
  cbn [simulated create_namespaced_cron_job]. rewrite Hbody, Hcl. cbn [fst snd].
  rewrite update_backup_job_run. cbv zeta.
  cbn [simulated delete_namespaced_cron_job]. rewrite lookup_insert_eq.
  rewrite Hdb, Hst. cbn [spec_item]. rewrite Hv, Hm.
  cbn [simulated create_namespaced_cron_job]. rewrite Hbody, lookup_delete_eq.
  cbn [fst snd]. rewrite insert_delete_eq, insert_insert_eq.
  rewrite check_backup_status_run.
  cbn [simulated read_namespaced_cron_job]. rewrite lookup_insert_eq.
  cbn [fst snd kube patch_status status last_schedule_time active].
  split; [eauto | ]. split; [eauto | ]. split; [reflexivity | ]. split; [reflexivity | ].
  split; now simplify_map_eq.
Qed.

Lemma create_update_check_witness :
  (exists r, fst (create_backup_job simulated (adopt_by "orders-db") example_spec
                    "orders-db" "prod" example_world) = inr r) /\
  (exists r, fst (update_backup_job simulated (adopt_by "orders-db") example_spec
                    "orders-db" "prod"
                    (snd (create_backup_job simulated (adopt_by "orders-db") example_spec
                            "orders-db" "prod" example_world))) = inr r) /\
  kube (snd (create_backup_job simulated (adopt_by "orders-db") example_spec
               "orders-db" "prod" example_world)) = example_cluster.
Proof.
  destruct (create_update_check (adopt_by "orders-db") (OperatorConfig.from_env ∅) ∅ ∅ [] ∅
              example_spec "orders-db" "prod" example_database example_storage example_built)
    as (H1 & H2 & H3 & _); try (vm_compute; reflexivity).
  split; [exact H1 | ]. split; [exact H2 | ].
  etransitivity; [exact H3 | vm_compute; reflexivity].
Defined.

(** ** Text inserted in the command, and empty environment variables *)

(** X25.  For every engine type the backup command is a fixed text around
    the host and the database name, which are inserted as they are:
    nothing in them is quoted, escaped or interpreted as a field of the
    template. *)
Theorem backup_command_inserts_verbatim (t : pyval) :
  exists before between after : string,
    forall host database : pyval,
      backup_command t host database =
        inr (before ++ str host ++ between ++ str database ++ after).
Proof.
  destruct (known_engine t) eqn:H.
  - apply known_engine_true in H as [-> | [-> | ->]].
    + exists "pg_dump -h ", " -U $DB_USER -d ",
        " | gzip > /backup/backup-$(date +%Y%m%d-%H%M%S).sql.gz".
      intros h d. apply backup_command_postgres.
    + exists "mysqldump -h ", " -u $DB_USER -p$DB_PASSWORD ",
        " | gzip > /backup/backup-$(date +%Y%m%d-%H%M%S).sql.gz".
      intros h d. apply backup_command_mysql.
    + exists "mongodump --host ", " --db ",
        " --archive=/backup/backup-$(date +%Y%m%d-%H%M%S).archive --gzip".
      intros h d. apply backup_command_mongodb.
  - exists "pg_dump -h ", " -U $DB_USER -d ",
      " | gzip > /backup/backup-$(date +%Y%m%d-%H%M%S).sql.gz".
    intros h d. now apply backup_command_fallback.
Qed.

(** X26.  For the namespace, the default schedule and the default
    retention, an environment variable that is set to the empty string
    counts as not set. *)
Theorem empty_variable_is_unset (env : environment) (k : string) :
  k = "OPERATOR_NAMESPACE" \/ k = "DEFAULT_BACKUP_SCHEDULE" \/ k = "DEFAULT_RETENTION_DAYS" ->
  OperatorConfig.from_env (<[k := ""]> env) = OperatorConfig.from_env (delete k env).
Proof.
  intros [-> | [-> | ->]]; unfold OperatorConfig.from_env, OperatorConfig.default,
    getenv, getenv_default;
    rewrite ?lookup_insert_eq, ?lookup_delete_eq;
    rewrite !lookup_insert_ne, !lookup_delete_ne by discriminate;
    reflexivity.
Qed.

Lemma empty_variable_is_unset_witness :
  OperatorConfig.from_env (<["DEFAULT_RETENTION_DAYS" := ""]> ∅) =
  OperatorConfig.from_env (delete "DEFAULT_RETENTION_DAYS" ∅).
Proof.
  apply (empty_variable_is_unset ∅ "DEFAULT_RETENTION_DAYS"). right. right. reflexivity.
Defined.
